(** * The cuML benchmark notebook: result records, tagging and aggregation

    A shallow embedding of the code cells of [cuml_benchmarks.ipynb]
    ([enrich_result], [execute_benchmark], the conversion to a data frame,
    [chart_single_algo_speedup], [chart_all_algo_speedup], the CSV export)
    and of the comparison cell of [kmeans_mnmg_demo.ipynb].

    Python objects live in a store: a result record is a [dict] object
    reached through a reference, so that in-place mutation and aliasing are
    visible.  The benchmark runner ([cuml.benchmark.runners]) and
    [algorithm_by_name] belong to cuML, not to the notebook: they are
    parameters of the development. *)

From Stdlib Require Import ZArith Floats String List.
From stdpp Require Import gmap strings list sorting.

Local Open Scope string_scope.
Local Open Scope Z_scope.
Local Open Scope list_scope.

(** ** Python values and dictionaries *)

Module Py.

(** The scalar values a result record holds. *)
Inductive value :=
  | VInt (z : Z)
  | VFloat (f : float)
  | VStr (s : string).

#[global] Instance float_eq_dec : EqDecision float.
Proof.
  intros x y. destruct (PrimFloat.Leibniz.eqb x y) eqn:E.
  - left. apply FloatAxioms.Leibniz.eqb_spec, E.
  - right. intros H. apply FloatAxioms.Leibniz.eqb_spec in H. congruence.
Defined.

#[global] Instance value_eq_dec : EqDecision value.
Proof.
  intros [z1|f1|s1] [z2|f2|s2];
    try (right; discriminate).
  - destruct (decide (z1 = z2)) as [E|N];
      [left; exact (f_equal VInt E) | right; congruence].
  - destruct (decide (f1 = f2)) as [E|N];
      [left; exact (f_equal VFloat E) | right; congruence].
  - destruct (decide (s1 = s2)) as [E|N];
      [left; exact (f_equal VStr E) | right; congruence].
Defined.

(** A [dict]: keys in insertion order, each key once. *)
Definition pydict := list (string * value).

#[global] Instance pydict_eq_dec : EqDecision pydict.
Proof. unfold pydict. apply _. Defined.

(** [d[k]] as a lookup that may find nothing. *)
Fixpoint dict_get (k : string) (d : pydict) : option value :=
  match d with
  | [] => None
  | (k', v) :: d' => if decide (k' = k) then Some v else dict_get k d'
  end.

(** [d[k] = v]: an existing key keeps its position, a new key goes last. *)
Fixpoint dict_set (k : string) (v : value) (d : pydict) : pydict :=
  match d with
  | [] => [(k, v)]
  | (k', v') :: d' =>
      if decide (k' = k) then (k, v) :: d' else (k', v') :: dict_set k v d'
  end.

Definition dict_keys (d : pydict) : list string := d.*1.

(** Exceptions, by class; [External] stands for whatever a library raises. *)
Inductive exn :=
  | AttributeError (name : string)
  | KeyError (key : string)
  | ValueError (msg : string)
  | TypeError (msg : string)
  | External (code : nat).

(** The result of a call: a value or a raised exception. *)
Inductive outcome (A : Type) :=
  | Return (a : A)
  | Raise (e : exn).
Arguments Return {A} a.
Arguments Raise {A} e.

End Py.
Export Py.

(** ** The object store and the notebook session *)

(** References to [dict] objects. *)
Abbreviation ref := nat (only parsing).
Abbreviation store := (gmap nat pydict) (only parsing).

(** The session: the store of result records and the global list
    [benchmark_results], a list of references. *)
Record session := Session {
  heap : store;
  benchmark_results : list ref
}.

(** [result[k] = v] on the object behind [l].  A reference a Python
    program holds always denotes an object; on a reference that denotes
    none the store is left as it is. *)
Definition setitem (l : ref) (k : string) (v : value) (h : store) : store :=
  alter (dict_set k v) l h.

(** A notebook computation: it runs in a session and returns or raises. *)
Definition M (A : Type) : Type := session → session * outcome A.

#[global] Instance M_ret : MRet M := λ A a st, (st, Return a).
#[global] Instance M_bind : MBind M := λ A B f m st,
  match m st with
  | (st', Return a) => f a st'
  | (st', Raise e) => (st', Raise e)
  end.
Definition lift {A} (o : outcome A) : M A := λ st, (st, o).

(** A call that works on the store only. *)
Definition on_heap {A} (f : store → store * A) : M A :=
  λ st, let '(h, a) := f (heap st) in
        (Session h (benchmark_results st), Return a).
Definition try_on_heap {A} (f : store → store * outcome A) : M A :=
  λ st, let '(h, o) := f (heap st) in (Session h (benchmark_results st), o).

(** [benchmark_results.extend(ls)] *)
Definition extend_results (ls : list ref) : M unit :=
  λ st, (Session (heap st) (benchmark_results st ++ ls), Return tt).

(** ** The runner and the two functions of the notebook *)

Section Notebook.
(** What [algorithm_by_name] returns, and the keyword arguments passed on. *)
Context {AlgoPair Kwargs : Type}.
Variable algorithm_by_name : string → outcome AlgoPair.

(** A [SpeedupComparisonRunner] as the notebook uses it: two attributes
    and the method [run], which returns references to result records. *)
Record Runner := {
  dataset_name : value;
  input_type : value;
  run : AlgoPair → bool → bool → Kwargs → store → store * outcome (list ref)
}.

(** [enrich_result(algorithm, runner, result)] *)
Definition enrich_result (algorithm : string) (runner : Runner) (result : ref)
    (h : store) : store * ref :=
  let h := setitem result "algo" (VStr algorithm) h in
  let h := setitem result "dataset_name" (dataset_name runner) h in
  let h := setitem result "input_type" (input_type runner) h in
  (h, result).

(** The three assignments of [enrich_result], on the dictionary itself. *)
Definition tag (algorithm : string) (runner : Runner) (d : pydict) : pydict :=
  dict_set "input_type" (input_type runner)
    (dict_set "dataset_name" (dataset_name runner)
       (dict_set "algo" (VStr algorithm) d)).

(** The keys [enrich_result] assigns. *)
Definition is_tag (k : string) : Prop :=
  k = "algo" ∨ k = "dataset_name" ∨ k = "input_type".

(** [[enrich_result(algorithm, runner, result) for result in results]] *)
Fixpoint enrich_all (algorithm : string) (runner : Runner) (results : list ref)
    (h : store) : store * list ref :=
  match results with
  | [] => (h, [])
  | result :: rest =>
      let '(h1, r) := enrich_result algorithm runner result h in
      let '(h2, rs) := enrich_all algorithm runner rest h1 in
      (h2, r :: rs)
  end.

(** The defaults of [verbose] and [run_cpu]. *)
Definition VERBOSE : bool := true.
Definition RUN_CPU : bool := true.

(** [execute_benchmark(algorithm, runner, verbose, run_cpu, **kwargs)] *)
Definition execute_benchmark (algorithm : string) (runner : Runner)
    (verbose run_cpu : bool) (kwargs : Kwargs) : M unit :=
  pair ← lift (algorithm_by_name algorithm);
  results ← try_on_heap (run runner pair verbose run_cpu kwargs);
  results ← on_heap (enrich_all algorithm runner results);
  extend_results results.

(** *** What the notebook relies on from a runner

    [run] builds its result records itself: the references it returns
    denote records of the store it leaves ([returns_live]), records that
    did not exist before the call ([returns_fresh]), and the call changes
    no record that existed ([keeps_store]). *)
Definition returns_live (runner : Runner) : Prop :=
  ∀ pair verbose run_cpu kwargs h h' ls,
    run runner pair verbose run_cpu kwargs h = (h', Return ls) →
    Forall (λ l, is_Some (h' !! l)) ls.

Definition returns_fresh (runner : Runner) : Prop :=
  ∀ pair verbose run_cpu kwargs h h' ls,
    run runner pair verbose run_cpu kwargs h = (h', Return ls) →
    Forall (λ l, h !! l = None) ls.

Definition keeps_store (runner : Runner) : Prop :=
  ∀ pair verbose run_cpu kwargs h h' o,
    run runner pair verbose run_cpu kwargs h = (h', o) →
    ∀ l d, h !! l = Some d → h' !! l = Some d.

Record well_behaved (runner : Runner) : Prop := {
  wb_live : returns_live runner;
  wb_fresh : returns_fresh runner;
  wb_keeps : keeps_store runner
}.

(** One benchmark cell: a call of [execute_benchmark]. *)
Record call := Call {
  c_algorithm : string;
  c_runner : Runner;
  c_verbose : bool;
  c_run_cpu : bool;
  c_kwargs : Kwargs
}.

Definition exec (c : call) : M unit :=
  execute_benchmark (c_algorithm c) (c_runner c) (c_verbose c) (c_run_cpu c)
    (c_kwargs c).

(** The benchmark cells of a session, run one after another; a cell that
    raises stops itself only, the session goes on with the next cell. *)
Fixpoint run_cells (cs : list call) (st : session) : session :=
  match cs with
  | [] => st
  | c :: cs' => run_cells cs' (exec c st).1
  end.

End Notebook.

(** Every accumulated reference denotes a record. *)
Definition results_live (st : session) : Prop :=
  Forall (λ l, is_Some (heap st !! l)) (benchmark_results st).

(** A record that carries the three tags. *)
Definition has_tags (d : pydict) : Prop :=
  is_Some (dict_get "algo" d) ∧ is_Some (dict_get "dataset_name" d) ∧
  is_Some (dict_get "input_type" d).

(** The session a notebook starts in: [benchmark_results = []]. *)
Definition initial : session := Session ∅ [].

(** The records the accumulated references denote, in sequence order. *)
Definition records (st : session) : list pydict :=
  omap (λ l, heap st !! l) (benchmark_results st).

(** ** Data frames (the part of pandas the notebook calls)

    pandas is a library the notebook imports; the functions below follow
    its documented behaviour.  A frame is a list of column labels and a
    list of rows; a cell the record did not have is missing ([None],
    pandas' NaN).  Conversion of column types is not modelled: a cell keeps
    the value of the record. *)

Module Pandas.

Record DataFrame := {
  columns : list string;
  rows : list pydict
}.

Definition cell (r : pydict) (c : string) : option value := dict_get c r.

(** Keys in order of first appearance. *)
Fixpoint first_seen (seen l : list string) : list string :=
  match l with
  | [] => []
  | k :: l' =>
      if decide (k ∈ seen) then first_seen seen l'
      else k :: first_seen (k :: seen) l'
  end.

(** [pd.DataFrame(list_of_dicts)]: the columns are the union of the keys. *)
Definition from_records (ds : list pydict) : DataFrame :=
  {| columns := first_seen [] (ds ≫= dict_keys); rows := ds |}.

(** [df.loc[df.algo == algorithm]]: [df.algo] needs the column. *)
Definition is_str (s : string) (c : option value) : bool :=
  match c with
  | Some (VStr s') => bool_decide (s' = s)
  | _ => false
  end.

Definition loc_algo (df : DataFrame) (algorithm : string) : outcome DataFrame :=
  if decide ("algo" ∈ columns df) then
    Return {| columns := columns df;
              rows := filter (λ r, is_str algorithm (cell r "algo") = true) (rows df) |}
  else Raise (AttributeError "algo").

(** Labels of an index: cells, ordered for display.  Integers order as
    integers and strings as strings, which are the labels the notebook
    builds; across classes the order is by class, and [pivot] puts a
    missing label before every value. *)
Definition value_leb (a b : value) : bool :=
  match a, b with
  | VInt x, VInt y => (x <=? y)%Z
  | VInt _, _ => true
  | VFloat _, VInt _ => false
  | VFloat x, VFloat y => (x <=? y)%float
  | VFloat _, VStr _ => true
  | VStr x, VStr y => (x <=? y)%string
  | VStr _, _ => false
  end.

Definition label_leb (a b : option value) : bool :=
  match a, b with
  | Some x, Some y => value_leb x y
  | Some _, None => false
  | None, Some _ => true
  | None, None => true
  end.

Definition label_le (a b : option value) : Prop := label_leb a b = true.

#[global] Instance label_le_dec : RelDecision label_le.
Proof. intros a b. unfold label_le. apply _. Defined.

Definition sorted_labels (l : list (option value)) : list (option value) :=
  merge_sort label_le (remove_dups l).

(** The table [pivot] returns: row labels, column labels, and the values
    row by row. *)
Record PivotTable := {
  pt_index : list (option value);
  pt_columns : list (option value);
  pt_values : list (list (option value))
}.

Definition pivot_key (index cols : string) (r : pydict)
  : option value * option value := (cell r index, cell r cols).

(** The value of the row with key [(i, c)], missing when there is none. *)
Definition pivot_find (index cols values : string) (rs : list pydict)
    (i c : option value) : option value :=
  match list_find (λ r, pivot_key index cols r = (i, c)) rs with
  | Some (_, r) => cell r values
  | None => None
  end.

(** [df.pivot(index=..., columns=..., values=...)]: each of the three
    columns must exist, and no two rows may share a pair of labels. *)
Definition pivot (df : DataFrame) (index cols values : string)
  : outcome PivotTable :=
  if decide (index ∉ columns df) then Raise (KeyError index)
  else if decide (cols ∉ columns df) then Raise (KeyError cols)
  else if decide (values ∉ columns df) then Raise (KeyError values)
  else if decide (NoDup (pivot_key index cols <$> rows df)) then
    let idx := sorted_labels ((λ r, cell r index) <$> rows df) in
    let cs := sorted_labels ((λ r, cell r cols) <$> rows df) in
    Return {| pt_index := idx;
              pt_columns := cs;
              pt_values :=
                (λ i, pivot_find index cols values (rows df) i <$> cs) <$> idx |}
  else Raise (ValueError "Index contains duplicate entries, cannot reshape").

(** Position of a label. *)
Definition label_pos (x : option value) (l : list (option value)) : option nat :=
  fst <$> list_find (λ y, y = x) l.

(** The cell of a pivot table at row label [i] and column label [c]. *)
Definition pt_cell (t : PivotTable) (i c : option value) : option (option value) :=
  n ← label_pos i (pt_index t);
  m ← label_pos c (pt_columns t);
  row ← pt_values t !! n;
  row !! m.

(** A value that counts as missing: no cell, or a float NaN. *)
Definition isna (c : option value) : bool :=
  match c with
  | None => true
  | Some (VFloat f) => PrimFloat.is_nan f
  | Some _ => false
  end.

(** The key of a row in [groupby([k1, k2])]; rows with a missing key label
    are left out of every group. *)
Definition group_key (k1 k2 : string) (r : pydict) : option (value * value) :=
  match cell r k1, cell r k2 with
  | Some a, Some b => if isna (Some a) || isna (Some b) then None else Some (a, b)
  | _, _ => None
  end.

Definition key_leb (a b : value * value) : bool :=
  if decide (a.1 = b.1) then value_leb a.2 b.2 else value_leb a.1 b.1.
Definition key_le (a b : value * value) : Prop := key_leb a b = true.

#[global] Instance key_le_dec : RelDecision key_le.
Proof. intros a b. unfold key_le. apply _. Defined.

(** The numbers a cell contributes to a mean: a missing cell contributes
    nothing. *)
Definition present (c : option value) : option value :=
  if isna c then None else c.

Definition is_text (c : option value) : bool :=
  match c with
  | Some (VStr _) => true
  | _ => false
  end.

(** The rows of one group. *)
Definition group_rows (k1 k2 : string) (rs : list pydict) (k : value * value)
  : list pydict :=
  filter (λ r, group_key k1 k2 r = Some k) rs.

Section GroupBy.
(** The floating-point mean of a list of numbers, as numpy computes it. *)
Variable mean : list value → float.

(** [df[[k1, k2, v]].groupby([k1, k2]).mean()]: one entry per pair of key
    labels, in key order, holding the mean of column [v] over the group;
    a column of text has no mean. *)
Definition groupby_mean (df : DataFrame) (k1 k2 v : string)
  : outcome (list ((value * value) * float)) :=
  match filter (λ c, c ∉ columns df) [k1; k2; v] with
  | c :: _ => Raise (KeyError c)
  | [] =>
      if existsb (λ r, is_text (cell r v)) (rows df) then
        Raise (TypeError "agg function failed [how->mean,dtype->object]")
      else
        let keys := merge_sort key_le
                      (remove_dups (omap (group_key k1 k2) (rows df))) in
        Return ((λ k, (k, mean (omap (λ r, present (cell r v))
                                      (group_rows k1 k2 (rows df) k))))
                  <$> keys)
  end.
End GroupBy.

(** The conversion of an integer of a column to a float. *)
Definition float_of_int (z : Z) : float :=
  if (z <? 0)%Z then (- PrimFloat.of_uint63 (Uint63.of_Z (- z)))%float
  else PrimFloat.of_uint63 (Uint63.of_Z z).

Definition number (v : value) : float :=
  match v with
  | VFloat f => f
  | VInt z => float_of_int z
  | VStr _ => nan
  end.

(** One step of the compensated sum of a group: the running sum and the
    compensation, which is reset when it is not a number. *)
Definition kahan_step (acc : float * float) (x : float) : float * float :=
  let y := (x - acc.2)%float in
  let t := (acc.1 + y)%float in
  let comp := (t - acc.1 - y)%float in
  (t, if PrimFloat.is_nan comp then 0%float else comp).

(** The mean of the numbers of a group: their compensated sum over their
    count, not a number when there is none. *)
Definition group_mean (vs : list value) : float :=
  match vs with
  | [] => nan
  | _ => ((foldl kahan_step (0, 0)%float (number <$> vs)).1
            / float_of_int (Z.of_nat (length vs)))%float
  end.

(** [df.to_csv(path)]: a header line (the index column has no name) and
    one line per row, the row number first. *)
Record CsvFile := {
  header : list string;
  lines : list (list (option value))
}.

Definition to_csv (df : DataFrame) : CsvFile :=
  {| header := "" :: columns df;
     lines := imap (λ i r, Some (VInt (Z.of_nat i)) :: (cell r <$> columns df))
                   (rows df) |}.

End Pandas.

(** ** The charting and export cells *)

Section Charts.
Import Pandas.

(** [df = pd.DataFrame(benchmark_results)] *)
Definition to_dataframe : M DataFrame :=
  λ st, (st, Return (from_records (records st))).

(** [chart_single_algo_speedup(df, algorithm)]: the table handed to
    [plot.bar]. *)
Definition chart_single_algo_speedup (df : DataFrame) (algorithm : string)
  : outcome PivotTable :=
  match loc_algo df algorithm with
  | Raise e => Raise e
  | Return df => pivot df "n_samples" "n_features" "speedup"
  end.

(** [chart_all_algo_speedup(df)]: the table handed to [plot.bar]. *)
Definition chart_all_algo_speedup (mean : list value → float) (df : DataFrame)
  : outcome (list ((value * value) * float)) :=
  groupby_mean mean df "algo" "n_samples" "speedup".

(** The rows of one algorithm, and the shape a row was measured at. *)
Definition selected (df : DataFrame) (algorithm : string) : list pydict :=
  filter (λ r, cell r "algo" = Some (VStr algorithm)) (rows df).
Definition shape (r : pydict) : option value * option value :=
  (cell r "n_samples", cell r "n_features").

(** The three closing cells, each run in the session. *)
Definition chart_single_cell (algorithm : string) : M PivotTable :=
  df ← to_dataframe; lift (chart_single_algo_speedup df algorithm).
Definition chart_all_cell (mean : list value → float)
  : M (list ((value * value) * float)) :=
  df ← to_dataframe; lift (chart_all_algo_speedup mean df).
Definition to_csv_cell : M CsvFile :=
  df ← to_dataframe; mret (to_csv df).
End Charts.

(** ** The comparison cell of the multi-GPU k-means demo *)

Module KMeansDemo.
(** [passed = score == 1.0] *)
Definition passed (score : float) : bool := (score =? 1)%float.

(** The line the cell prints. *)
Definition report (score : float) : string :=
  ("compare kmeans: cuml vs sklearn labels_ are "
     ++ (if passed score then "equal" else "NOT equal"))%string.
End KMeansDemo.

(** ** Stub runners and sample sessions

    Runners with fixed timings, used to run the notebook's functions on
    concrete inputs. *)

Module Examples.
Import Pandas.

(** A new [dict] object. *)
Definition alloc (d : pydict) (h : store) : store * ref :=
  (<[fresh (dom h) := d]> h, fresh (dom h)).

Fixpoint alloc_all (ds : list pydict) (h : store) : store * list ref :=
  match ds with
  | [] => (h, [])
  | d :: ds' =>
      let '(h1, l) := alloc d h in
      let '(h2, ls) := alloc_all ds' h1 in
      (h2, l :: ls)
  end.

(** A runner that returns the given records, newly built at each call. *)
Definition stub_runner (dataset : string) (ds : list pydict)
  : @Runner unit unit :=
  {| dataset_name := VStr dataset;
     input_type := VStr "numpy";
     run := λ _ _ _ _ h, let '(h', ls) := alloc_all ds h in (h', Return ls) |}.

(** A runner whose [run] raises. *)
Definition failing_runner (e : exn) : @Runner unit unit :=
  {| dataset_name := VStr "blobs";
     input_type := VStr "numpy";
     run := λ _ _ _ _ h, (h, Raise e) |}.

Definition by_name (name : string) : outcome unit := Return tt.

(** A record as a runner reports it: the two timings, their ratio and
    the shape of the data set. *)
Definition timing (n f : Z) (cuml cpu : float) : pydict :=
  [("cuml_time", VFloat cuml); ("cpu_time", VFloat cpu);
   ("speedup", VFloat (cpu / cuml)); ("n_samples", VInt n);
   ("n_features", VInt f)].

(** One shape, accelerated time 1.0 s, baseline time 4.0 s. *)
Definition one_point : list pydict := [timing 16384 32 1 4].

(** One row size and two feature sizes. *)
Definition two_features : list pydict :=
  [timing 16384 32 1 2; timing 16384 256 1 4].

(** One shape measured twice, a record for each repetition. *)
Definition two_repetitions : list pydict :=
  [timing 16384 32 1 4; timing 16384 32 1 3].

Definition session_of (algorithm : string) (ds : list pydict) : session :=
  run_cells by_name [Call algorithm (stub_runner "blobs" ds) VERBOSE RUN_CPU tt]
    initial.

(** The same benchmark cell run twice in one session. *)
Definition rerun (algorithm : string) (ds : list pydict) : session :=
  run_cells by_name
    [Call algorithm (stub_runner "blobs" ds) VERBOSE RUN_CPU tt;
     Call algorithm (stub_runner "blobs" ds) VERBOSE RUN_CPU tt] initial.

(** [pd.DataFrame(benchmark_results)] in a session. *)
Definition frame_of (st : session) : DataFrame := from_records (records st).

End Examples.

(** ** Further runner contracts and sample runners *)

(** A runner that reports each shape once: the records of one call have
    pairwise distinct pairs of row count and feature count. *)
Definition distinct_shapes {AlgoPair Kwargs}
    (runner : @Runner AlgoPair Kwargs) : Prop :=
  ∀ pair verbose run_cpu kwargs h h' ls,
    run runner pair verbose run_cpu kwargs h = (h', Return ls) →
    NoDup (shape <$> omap (λ l, h' !! l) ls).

(** The algorithm names of a list of benchmark cells. *)
Definition algorithms {AlgoPair Kwargs}
    (cs : list (@call AlgoPair Kwargs)) : list string :=
  c_algorithm <$> cs.

(** A record tagged by one of the benchmark cells [cs]. *)
Definition from_cell {AlgoPair Kwargs}
    (cs : list (@call AlgoPair Kwargs)) (d : pydict) : Prop :=
  ∃ c, c ∈ cs ∧
       dict_get "algo" d = Some (VStr (c_algorithm c)) ∧
       dict_get "dataset_name" d = Some (dataset_name (c_runner c)) ∧
       dict_get "input_type" d = Some (input_type (c_runner c)).

Section Contributions.
Context {AlgoPair Kwargs : Type}.
Variable algorithm_by_name : string → outcome AlgoPair.

(** What the runner of a benchmark cell hands over when the cell is run in
    session [st]: the store it leaves and the references it returns, none
    when the lookup of the algorithm or the run raises. *)
Definition handed_over (c : @call AlgoPair Kwargs) (st : session)
  : gmap nat pydict * list nat :=
  match algorithm_by_name (c_algorithm c) with
  | Return p =>
      match run (c_runner c) p (c_verbose c) (c_run_cpu c) (c_kwargs c)
              (heap st) with
      | (h1, Return ls) => (h1, ls)
      | (h1, Raise _) => (h1, [])
      end
  | Raise _ => (heap st, [])
  end.

(** The records a cell contributes: those its runner returned, tagged with
    the algorithm name and the attributes of the runner. *)
Definition contribution (c : @call AlgoPair Kwargs) (st : session)
  : list pydict :=
  tag (c_algorithm c) (c_runner c)
    <$> omap (λ l, (handed_over c st).1 !! l) (handed_over c st).2.

(** The references and the records that a list of cells contributes, cell
    after cell, each cell run in the session the cells before it left. *)
Fixpoint session_refs (cs : list (@call AlgoPair Kwargs)) (st : session)
  : list nat :=
  match cs with
  | [] => []
  | c :: cs' =>
      (handed_over c st).2
        ++ session_refs cs' (exec algorithm_by_name c st).1
  end.

Fixpoint session_records (cs : list (@call AlgoPair Kwargs)) (st : session)
  : list pydict :=
  match cs with
  | [] => []
  | c :: cs' =>
      contribution c st
        ++ session_records cs' (exec algorithm_by_name c st).1
  end.
End Contributions.

Module MoreExamples.
Import Pandas Examples.

(** A runner that hands back dictionaries it holds on to, instead of
    building new ones: the references it was created with. *)
Definition cached_runner (ls : list ref) : @Runner unit unit :=
  {| dataset_name := VStr "classification";
     input_type := VStr "cudf";
     run := λ _ _ _ _ h, (h, Return ls) |}.

(** A record that holds the shape of a sweep point and nothing else. *)
Definition shape_only (n f : Z) : pydict :=
  [("n_samples", VInt n); ("n_features", VInt f)].

(** A name no algorithm goes by. *)
Definition no_such_name (name : string) : outcome unit :=
  Raise (External 2).

(** Two algorithms, benchmarked once each over two shapes. *)
Definition two_cells : list (@call unit unit) :=
  [Call "KMeans" (stub_runner "blobs" two_features) VERBOSE RUN_CPU tt;
   Call "PCA" (stub_runner "blobs" two_features) VERBOSE RUN_CPU tt].
End MoreExamples.

(** * Properties *)

(** ** Dictionaries *)

Section DictFacts.
Implicit Types (k : string) (v : value) (d : pydict).

Lemma dict_get_set_eq k v d : dict_get k (dict_set k v d) = Some v.
Proof.
  induction d as [|[k' v'] d IH]; simpl.
  - by rewrite decide_True.
  - destruct (decide (k' = k)) as [->|N]; simpl.
    + by rewrite decide_True.
    + by rewrite decide_False.
Qed.

Lemma dict_get_set_ne k k' v d :
  k ≠ k' → dict_get k' (dict_set k v d) = dict_get k' d.
Proof.
  intros N. induction d as [|[k0 v0] d IH]; simpl.
  - by rewrite decide_False.
  - destruct (decide (k0 = k)) as [->|N0]; simpl.
    + by rewrite !decide_False.
    + destruct (decide (k0 = k')); done.
Qed.

Lemma dict_set_id k v d : dict_get k d = Some v → dict_set k v d = d.
Proof.
  induction d as [|[k0 v0] d IH]; simpl; [done|].
  destruct (decide (k0 = k)) as [->|N]; [congruence|].
  intros H. by rewrite IH.
Qed.

Lemma dict_get_Some_keys k v d : dict_get k d = Some v → k ∈ dict_keys d.
Proof.
  unfold dict_keys. induction d as [|[k0 v0] d IH]; simpl; [done|].
  destruct (decide (k0 = k)) as [->|N]; intros H.
  - apply list_elem_of_here.
  - apply list_elem_of_further, IH, H.
Qed.

Lemma dict_keys_get k d : k ∈ dict_keys d → is_Some (dict_get k d).
Proof.
  unfold dict_keys. induction d as [|[k0 v0] d IH]; simpl.
  - intros H. by apply not_elem_of_nil in H.
  - destruct (decide (k0 = k)) as [->|N]; [by eexists|].
    intros [E|H]%elem_of_cons; [congruence | by apply IH].
Qed.
End DictFacts.

(** ** Tagging *)

Section Tagging.
Context {AlgoPair Kwargs : Type}.
Implicit Types (r : @Runner AlgoPair Kwargs) (h : gmap nat pydict) (a : string).

Lemma tag_algo a r d : dict_get "algo" (tag a r d) = Some (VStr a).
Proof.
  unfold tag. rewrite !dict_get_set_ne by done. apply dict_get_set_eq.
Qed.

Lemma tag_dataset_name a r d :
  dict_get "dataset_name" (tag a r d) = Some (dataset_name r).
Proof.
  unfold tag. rewrite dict_get_set_ne by done. apply dict_get_set_eq.
Qed.

Lemma tag_input_type a r d :
  dict_get "input_type" (tag a r d) = Some (input_type r).
Proof. unfold tag. apply dict_get_set_eq. Qed.

Lemma tag_other a r d k : ¬ is_tag k → dict_get k (tag a r d) = dict_get k d.
Proof.
  intros N. unfold tag, is_tag in *.
  rewrite !dict_get_set_ne; [done|..]; intros <-; apply N; auto.
Qed.

Lemma tag_idem a r d : tag a r (tag a r d) = tag a r d.
Proof.
  unfold tag at 1.
  rewrite (dict_set_id "algo") by apply tag_algo.
  rewrite (dict_set_id "dataset_name") by apply tag_dataset_name.
  apply dict_set_id, tag_input_type.
Qed.

Lemma enrich_result_alter a r l h :
  enrich_result a r l h = (alter (tag a r) l h, l).
Proof.
  unfold enrich_result, setitem. by rewrite !alter_alter_eq.
Qed.

Lemma enrich_all_refs a r ls h : (enrich_all a r ls h).2 = ls.
Proof.
  revert h. induction ls as [|l ls IH]; intros h; simpl; [done|].
  specialize (IH (setitem l "input_type" (input_type r)
    (setitem l "dataset_name" (dataset_name r) (setitem l "algo" (VStr a) h)))).
  destruct (enrich_all _ _ ls _) as [h2 rs]. simpl in *. by rewrite IH.
Qed.

(** The list comprehension tags the records it is given, once each, and
    touches nothing else in the store. *)
Lemma enrich_all_lookup a r ls h l :
  (enrich_all a r ls h).1 !! l =
    (if decide (l ∈ ls) then tag a r else id) <$> (h !! l).
Proof.
  revert h. induction ls as [|x ls IH]; intros h.
  - cbn [enrich_all fst]. case_decide as E; [by apply not_elem_of_nil in E|].
    by destruct (h !! l).
  - cbn [enrich_all]. rewrite enrich_result_alter.
    specialize (IH (alter (tag a r) x h)).
    destruct (enrich_all a r ls _) as [h2 rs]. cbn [fst] in *. rewrite IH.
    destruct (decide (x = l)) as [->|N].
    + rewrite lookup_alter_eq.
      rewrite (decide_True (P := l ∈ l :: ls)) by apply list_elem_of_here.
      destruct (h !! l) as [d|]; cbn; [|by case_decide].
      case_decide; cbn; by rewrite ?tag_idem.
    + rewrite lookup_alter_ne by done.
      destruct (decide (l ∈ ls)) as [I|I].
      * by rewrite decide_True by (by apply list_elem_of_further).
      * rewrite decide_False; [done|].
        intros [E|E]%elem_of_cons; congruence.
Qed.
End Tagging.

(** ** [enrich_result] and [execute_benchmark] *)

Section Execute.
Context {AlgoPair Kwargs : Type}.
Variable algorithm_by_name : string → outcome AlgoPair.
Implicit Types (r : @Runner AlgoPair Kwargs) (h : gmap nat pydict)
  (a : string) (st : session).

(** The body of [execute_benchmark], case by case. *)
Lemma execute_benchmark_eq a r v c k st :
  execute_benchmark algorithm_by_name a r v c k st =
    match algorithm_by_name a with
    | Raise e => (st, Raise e)
    | Return p =>
        match run r p v c k (heap st) with
        | (h1, Raise e) => (Session h1 (benchmark_results st), Raise e)
        | (h1, Return ls) =>
            (Session (enrich_all a r ls h1).1 (benchmark_results st ++ ls),
             Return tt)
        end
    end.
Proof.
  unfold execute_benchmark, mbind, M_bind, lift, try_on_heap, on_heap,
    extend_results.
  destruct (algorithm_by_name a) as [p|e]; [|done].
  destruct (run r p v c k (heap st)) as [h1 [ls|e]]; [|done].
  cbn. pose proof (enrich_all_refs a r ls h1) as E.
  destruct (enrich_all a r ls h1) as [h2 rs]. cbn in *. by subst.
Qed.

(** (C9) [enrich_result] returns the very reference it was given, creates
    no object, leaves every other object alone, and in the record itself
    changes the three tag keys only: every other key keeps its value, and
    no other key appears or disappears. *)
Theorem enrich_result_frame a r l h d :
  h !! l = Some d →
  (enrich_result a r l h).2 = l ∧
  dom (enrich_result a r l h).1 = dom h ∧
  (∀ l', l' ≠ l → (enrich_result a r l h).1 !! l' = h !! l') ∧
  ∃ d', (enrich_result a r l h).1 !! l = Some d' ∧
        (∀ k, ¬ is_tag k → dict_get k d' = dict_get k d) ∧
        (∀ k, ¬ is_tag k → k ∈ dict_keys d' ↔ k ∈ dict_keys d).
Proof.
  intros Hl. rewrite enrich_result_alter. cbn [fst snd].
  split; [done|]. split; [apply dom_alter_L|].
  split; [intros l' N; by rewrite lookup_alter_ne|].
  exists (tag a r d). rewrite lookup_alter_eq, Hl. split; [done|].
  split; [intros k N; by apply tag_other|].
  intros k N. split; intros I.
  - apply dict_keys_get in I as [x I]. rewrite tag_other in I by done.
    eapply dict_get_Some_keys, I.
  - apply dict_keys_get in I as [x I]. rewrite <- (tag_other a r) in I by done.
    eapply dict_get_Some_keys, I.
Qed.

(** (C2) Every record an invocation of [execute_benchmark] appends carries
    the algorithm name under [algo], the runner's [dataset_name] and the
    runner's [input_type]. *)
Theorem execute_benchmark_tags a r v c k st st' :
  returns_live r →
  execute_benchmark algorithm_by_name a r v c k st = (st', Return tt) →
  ∀ l, l ∈ drop (length (benchmark_results st)) (benchmark_results st') →
    ∃ d, heap st' !! l = Some d ∧
         dict_get "algo" d = Some (VStr a) ∧
         dict_get "dataset_name" d = Some (dataset_name r) ∧
         dict_get "input_type" d = Some (input_type r).
Proof.
  intros Hlive. rewrite execute_benchmark_eq.
  destruct (algorithm_by_name a) as [p|e]; [|done].
  destruct (run r p v c k (heap st)) as [h1 [ls|e]] eqn:Hrun; [|done].
  intros [= <-] l. cbn [heap benchmark_results].
  rewrite drop_app_length. intros Hin.
  apply Hlive in Hrun. rewrite Forall_forall in Hrun.
  destruct (Hrun l Hin) as [d Hd].
  exists (tag a r d). rewrite enrich_all_lookup, Hd, decide_True by done.
  split; [done|].
  auto using tag_algo, tag_dataset_name, tag_input_type.
Qed.

(** The records of a session, after a change of store that keeps the
    accumulated ones. *)
Lemma records_extend h' new st :
  results_live st →
  (∀ l, l ∈ benchmark_results st → h' !! l = heap st !! l) →
  records (Session h' (benchmark_results st ++ new)) =
    records st ++ omap (λ l, h' !! l) new.
Proof.
  intros _ Heq. unfold records. cbn [heap benchmark_results].
  rewrite omap_app. f_equal.
  induction (benchmark_results st) as [|l ls IH]; [done|].
  cbn. rewrite Heq by apply list_elem_of_here.
  rewrite IH; [done|]. intros l' I. by apply Heq, list_elem_of_further.
Qed.

(** (C4) When [runner.run] raises, [execute_benchmark] raises the same
    exception, and the accumulated sequence is as it was: the same
    references, denoting the same records. *)
Theorem execute_benchmark_propagates a r v c k st p h1 e :
  keeps_store r →
  results_live st →
  algorithm_by_name a = Return p →
  run r p v c k (heap st) = (h1, Raise e) →
  ∃ st', execute_benchmark algorithm_by_name a r v c k st = (st', Raise e) ∧
         benchmark_results st' = benchmark_results st ∧
         records st' = records st.
Proof.
  intros Hkeep Hlive Hp Hrun. rewrite execute_benchmark_eq, Hp, Hrun.
  eexists. split; [done|]. split; [done|].
  rewrite <- (app_nil_r (benchmark_results st)) at 1.
  rewrite records_extend; [by rewrite app_nil_r|done|].
  intros l I. unfold results_live in Hlive. rewrite Forall_forall in Hlive.
  destruct (Hlive l I) as [d Hd]. rewrite Hd. eapply Hkeep; eauto.
Qed.

(** One invocation: old references stay in place and keep their records,
    new references come after them. *)
Lemma execute_benchmark_appends a r v c k st :
  well_behaved r →
  results_live st →
  ∃ new,
    benchmark_results (execute_benchmark algorithm_by_name a r v c k st).1
      = benchmark_results st ++ new ∧
    (∀ l, l ∈ benchmark_results st →
       heap (execute_benchmark algorithm_by_name a r v c k st).1 !! l
         = heap st !! l) ∧
    results_live (execute_benchmark algorithm_by_name a r v c k st).1 ∧
    (∀ l, l ∈ new →
       ∃ d, heap (execute_benchmark algorithm_by_name a r v c k st).1 !! l
              = Some (tag a r d)).
Proof.
  intros [Hl Hf Hk] Hlive. rewrite execute_benchmark_eq.
  unfold results_live in *. rewrite Forall_forall in Hlive.
  destruct (algorithm_by_name a) as [p|e].
  2:{ exists []. cbn. rewrite app_nil_r. rewrite Forall_forall.
      repeat split; try done. by intros l I%elem_of_nil. }
  destruct (run r p v c k (heap st)) as [h1 [ls|e]] eqn:Hrun; cbn [fst].
  - pose proof (Hl _ _ _ _ _ _ _ Hrun) as Hlive1.
    pose proof (Hf _ _ _ _ _ _ _ Hrun) as Hfresh1.
    rewrite Forall_forall in Hlive1, Hfresh1.
    assert (∀ l, l ∈ benchmark_results st →
              (enrich_all a r ls h1).1 !! l = heap st !! l) as Hold.
    { intros l I. destruct (Hlive l I) as [d Hd].
      rewrite enrich_all_lookup, (Hk _ _ _ _ _ _ _ Hrun l d Hd), Hd.
      rewrite decide_False; [done|].
      intros I'. apply Hfresh1 in I'. congruence. }
    exists ls. cbn [heap benchmark_results]. split; [done|]. split; [done|].
    split.
    + rewrite Forall_forall. intros l [I|I]%elem_of_app.
      * rewrite Hold by done. by apply Hlive.
      * rewrite enrich_all_lookup. destruct (Hlive1 l I) as [d ->]. by eexists.
    + intros l I. rewrite enrich_all_lookup. destruct (Hlive1 l I) as [d ->].
      exists d. by rewrite decide_True.
  - exists []. cbn [heap benchmark_results]. rewrite app_nil_r.
    split; [done|].
    assert (∀ l, l ∈ benchmark_results st → h1 !! l = heap st !! l) as Hold.
    { intros l I. destruct (Hlive l I) as [d Hd]. rewrite Hd.
      eapply Hk; eauto. }
    split; [done|]. split; [|by intros l I%elem_of_nil].
    rewrite Forall_forall. intros l I.
    rewrite Hold by done. by apply Hlive.
Qed.

(** (X1) An invocation that returns appends one record per record its runner
    returned, and the keys the runner wrote (its timings, the shape, the
    speedup when it reports one) reach the accumulated record unchanged. *)
Lemma execute_benchmark_forwards a r v c k st p h1 ls :
  algorithm_by_name a = Return p →
  run r p v c k (heap st) = (h1, Return ls) →
  benchmark_results (execute_benchmark algorithm_by_name a r v c k st).1
    = benchmark_results st ++ ls ∧
  ∀ l key, ¬ is_tag key →
    (heap (execute_benchmark algorithm_by_name a r v c k st).1 !! l)
      ≫= dict_get key = (h1 !! l) ≫= dict_get key.
Proof.
  intros Hp Hrun. rewrite execute_benchmark_eq, Hp, Hrun.
  cbn [fst heap benchmark_results]. split; [done|].
  intros l key N. rewrite enrich_all_lookup.
  destruct (h1 !! l) as [d|]; [|done]. cbn.
  case_decide; cbn; [by apply tag_other | done].
Qed.
End Execute.

(** ** The comparison cell of the k-means demo *)

Section KMeansDemoFacts.
Import KMeansDemo.

(** [score == 1.0] holds for the float 1.0 and for no other. *)
Lemma passed_iff score : passed score = true ↔ score = 1%float.
Proof.
  unfold passed. split; [|by intros ->].
  rewrite FloatAxioms.eqb_spec. intros H. apply Prim2SF_inj.
  change (Prim2SF 1) with (S754_finite false 4503599627370496 (-52)) in *.
  destruct (Prim2SF score) as [s|s| |s m e]; try discriminate H.
  - by destruct s.
  - unfold SFeqb, SFcompare in H.
    destruct s; [discriminate H|].
    destruct (e ?= -52) eqn:Ee; try discriminate H.
    destruct (PosDef.Pos.compare_cont Eq m 4503599627370496) eqn:Em;
      try discriminate H.
    apply Z.compare_eq in Ee. apply Pos.compare_eq in Em. by subst.
Qed.

Lemma below_not_passed score : (score <? 1)%float = true → passed score = false.
Proof.
  unfold passed. rewrite FloatAxioms.ltb_spec, FloatAxioms.eqb_spec.
  unfold SFltb, SFeqb.
  by destruct (SFcompare _ _) as [[]|].
Qed.

(** (C10) The cell prints "equal" exactly when the score is the float
    1.0; every score below 1.0, the largest float below 1.0 included,
    and a score that is not a number print "NOT equal". *)
Theorem report_equal_iff_one score :
  (report score = "compare kmeans: cuml vs sklearn labels_ are equal"
     ↔ score = 1%float) ∧
  (report score = "compare kmeans: cuml vs sklearn labels_ are equal"
     ∨ report score = "compare kmeans: cuml vs sklearn labels_ are NOT equal") ∧
  ((score <? 1)%float = true →
     report score = "compare kmeans: cuml vs sklearn labels_ are NOT equal") ∧
  report (PrimFloat.next_down 1)
    = "compare kmeans: cuml vs sklearn labels_ are NOT equal" ∧
  report nan = "compare kmeans: cuml vs sklearn labels_ are NOT equal".
Proof.
  split; [|split; [|split; [|split; reflexivity]]].
  - rewrite <- passed_iff. unfold report.
    destruct (passed score); cbn; split; intros H; done.
  - unfold report. destruct (passed score); cbn; auto.
  - intros H. unfold report. by rewrite below_not_passed.
Qed.
End KMeansDemoFacts.

(** ** Data frames *)

Section PandasFacts.
Import Pandas.
Implicit Types (df : DataFrame) (r : pydict) (i c : option value).

Lemma first_seen_elem seen l k : k ∈ first_seen seen l ↔ k ∈ l ∧ k ∉ seen.
Proof.
  revert seen. induction l as [|x l IH]; intros seen; simpl.
  - rewrite elem_of_nil. tauto.
  - case_decide as E.
    + rewrite IH, elem_of_cons. split; [tauto|].
      intros [[->|?] ?]; tauto.
    + rewrite !elem_of_cons, IH, elem_of_cons.
      destruct (decide (k = x)) as [->|N]; tauto.
Qed.

Lemma first_seen_NoDup seen l : NoDup (first_seen seen l).
Proof.
  revert seen. induction l as [|x l IH]; intros seen; simpl.
  - constructor.
  - case_decide; [apply IH|]. constructor; [|apply IH].
    rewrite first_seen_elem. intros [_ N]. apply N, list_elem_of_here.
Qed.

(** The columns of a converted frame are the keys of its records. *)
Lemma columns_from_records ds k :
  k ∈ columns (from_records ds) ↔ ∃ d, d ∈ ds ∧ k ∈ dict_keys d.
Proof.
  cbn. rewrite first_seen_elem, list_elem_of_bind.
  split.
  - intros [(d & ? & ?) _]. eauto.
  - intros (d & ? & ?). split; [eauto | apply not_elem_of_nil].
Qed.

Lemma sorted_labels_elem l i : i ∈ sorted_labels l ↔ i ∈ l.
Proof.
  unfold sorted_labels. by rewrite merge_sort_Permutation, elem_of_remove_dups.
Qed.

Lemma sorted_labels_NoDup l : NoDup (sorted_labels l).
Proof.
  unfold sorted_labels. rewrite merge_sort_Permutation.
  apply NoDup_remove_dups.
Qed.

Lemma label_pos_elem i l :
  i ∈ l → ∃ n, label_pos i l = Some n ∧ l !! n = Some i.
Proof.
  intros I. unfold label_pos.
  destruct (list_find (λ y, y = i) l) as [[n y]|] eqn:E.
  - apply list_find_Some in E as (Hn & -> & _). by exists n.
  - apply list_find_None in E. rewrite Forall_forall in E.
    by destruct (E i I).
Qed.

Lemma is_str_iff s c : is_str s c = true ↔ c = Some (VStr s).
Proof.
  destruct c as [[z|f|s']|]; cbn; try (split; intros; discriminate).
  rewrite bool_decide_eq_true. split; [by intros ->|by intros [= ->]].
Qed.

(** With distinct labels, the row of a pair of labels is found. *)
Lemma pivot_find_key index cols values rs r :
  NoDup (pivot_key index cols <$> rs) → r ∈ rs →
  pivot_find index cols values rs (cell r index) (cell r cols) = cell r values.
Proof.
  intros ND I. unfold pivot_find.
  destruct (list_find _ rs) as [[n r']|] eqn:E.
  - apply list_find_Some in E as (Hn & Hk & _).
    apply list_elem_of_lookup in I as [m Hm].
    assert (n = m) as ->; [|congruence].
    eapply (NoDup_lookup _ _ _ _ ND); rewrite list_lookup_fmap.
    + by rewrite Hn; cbn; rewrite Hk.
    + by rewrite Hm.
  - apply list_find_None in E. rewrite Forall_forall in E.
    by destruct (E r I).
Qed.

Lemma pivot_find_none index cols values rs i c :
  (i, c) ∉ pivot_key index cols <$> rs →
  pivot_find index cols values rs i c = None.
Proof.
  intros N. unfold pivot_find.
  destruct (list_find _ rs) as [[n r']|] eqn:E; [|done].
  apply list_find_Some in E as (Hn & Hk & _). destruct N.
  rewrite <- Hk. eapply list_elem_of_fmap_2, list_elem_of_lookup_2, Hn.
Qed.

(** Reading a cell of a table laid out as [pivot] lays it out. *)
Lemma pt_cell_layout idx cs (f : option value → option value → option value) i c :
  i ∈ idx → c ∈ cs →
  pt_cell {| pt_index := idx; pt_columns := cs;
             pt_values := (λ i, f i <$> cs) <$> idx |} i c = Some (f i c).
Proof.
  intros [n [Hn Hi]]%label_pos_elem [m [Hm Hc]]%label_pos_elem.
  unfold pt_cell. cbn [pt_index pt_columns pt_values].
  rewrite Hn. cbn [mbind option_bind]. rewrite Hm. cbn [mbind option_bind].
  rewrite list_lookup_fmap, Hi. cbn [fmap option_fmap option_map mbind option_bind].
  by rewrite list_lookup_fmap, Hc.
Qed.

Lemma pivot_Return df index cols values :
  index ∈ columns df → cols ∈ columns df → values ∈ columns df →
  NoDup (pivot_key index cols <$> rows df) →
  pivot df index cols values =
    Return {| pt_index := sorted_labels ((λ r, cell r index) <$> rows df);
              pt_columns := sorted_labels ((λ r, cell r cols) <$> rows df);
              pt_values :=
                (λ i, pivot_find index cols values (rows df) i
                        <$> sorted_labels ((λ r, cell r cols) <$> rows df))
                  <$> sorted_labels ((λ r, cell r index) <$> rows df) |}.
Proof.
  intros H1 H2 H3 ND. unfold pivot.
  rewrite !decide_False by (by intros N; apply N).
  by rewrite decide_True.
Qed.

Lemma pivot_Raise df index cols values :
  index ∈ columns df → cols ∈ columns df → values ∈ columns df →
  ¬ NoDup (pivot_key index cols <$> rows df) →
  pivot df index cols values =
    Raise (ValueError "Index contains duplicate entries, cannot reshape").
Proof.
  intros H1 H2 H3 ND. unfold pivot.
  rewrite !decide_False by (by intros N; apply N).
  by rewrite decide_False.
Qed.

Lemma loc_algo_selected df a :
  "algo" ∈ columns df →
  loc_algo df a = Return {| columns := columns df; rows := selected df a |}.
Proof.
  intros H. unfold loc_algo, selected. rewrite decide_True by done.
  do 2 f_equal. apply list_filter_iff. intros r. apply is_str_iff.
Qed.

(** (C6, as the code has it) When the frame has the four columns and the
    rows of the algorithm have pairwise distinct shapes, the pivot step
    returns a table whose row labels are the distinct row counts of those
    rows, whose column labels are their distinct feature counts, and whose
    cell at a row's shape is that row's speedup; a shape no row has is a
    missing cell, so a complete sweep with a speedup in every record has
    no missing cell.  When two rows of the algorithm share a shape, the
    step raises. *)
Theorem chart_single_algo_speedup_pivot df a :
  "algo" ∈ columns df → "n_samples" ∈ columns df →
  "n_features" ∈ columns df → "speedup" ∈ columns df →
  (NoDup (shape <$> selected df a) →
   ∃ t, chart_single_algo_speedup df a = Return t ∧
     NoDup (pt_index t) ∧
     (∀ i, i ∈ pt_index t ↔ ∃ r, r ∈ selected df a ∧ cell r "n_samples" = i) ∧
     NoDup (pt_columns t) ∧
     (∀ c, c ∈ pt_columns t ↔ ∃ r, r ∈ selected df a ∧ cell r "n_features" = c) ∧
     (∀ r, r ∈ selected df a →
        pt_cell t (cell r "n_samples") (cell r "n_features")
          = Some (cell r "speedup")) ∧
     (∀ i c, i ∈ pt_index t → c ∈ pt_columns t →
        (i, c) ∉ shape <$> selected df a → pt_cell t i c = Some None) ∧
     ((∀ i c, i ∈ pt_index t → c ∈ pt_columns t →
         ∃ r, r ∈ selected df a ∧ shape r = (i, c) ∧ is_Some (cell r "speedup")) →
      ∀ i c, i ∈ pt_index t → c ∈ pt_columns t →
        ∃ v, pt_cell t i c = Some (Some v))) ∧
  (¬ NoDup (shape <$> selected df a) →
   chart_single_algo_speedup df a =
     Raise (ValueError "Index contains duplicate entries, cannot reshape")).
Proof.
  intros Ha Hs Hf Hv. unfold chart_single_algo_speedup.
  rewrite loc_algo_selected by done. split; intros ND.
  - rewrite pivot_Return by done. cbn [rows].
    eexists. split; [reflexivity|]. cbn [pt_index pt_columns].
    assert (∀ r, r ∈ selected df a →
      pt_cell
        {| pt_index := sorted_labels ((λ r, cell r "n_samples") <$> selected df a);
           pt_columns := sorted_labels ((λ r, cell r "n_features") <$> selected df a);
           pt_values :=
             (λ i, pivot_find "n_samples" "n_features" "speedup" (selected df a) i
                <$> sorted_labels ((λ r, cell r "n_features") <$> selected df a))
               <$> sorted_labels ((λ r, cell r "n_samples") <$> selected df a) |}
        (cell r "n_samples") (cell r "n_features") = Some (cell r "speedup"))
      as Hcell.
    { intros r I.
      rewrite (pt_cell_layout _ _
        (pivot_find "n_samples" "n_features" "speedup" (selected df a))).
      - by rewrite pivot_find_key.
      - apply sorted_labels_elem. by apply (list_elem_of_fmap_2 (λ r, cell r _)).
      - apply sorted_labels_elem. by apply (list_elem_of_fmap_2 (λ r, cell r _)). }
    split; [apply sorted_labels_NoDup|].
    split.
    { intros i. rewrite sorted_labels_elem, list_elem_of_fmap.
      split; intros (r & ? & ?); eauto. }
    split; [apply sorted_labels_NoDup|].
    split.
    { intros c. rewrite sorted_labels_elem, list_elem_of_fmap.
      split; intros (r & ? & ?); eauto. }
    split; [done|].
    split.
    + intros i c Hi Hc N.
      rewrite (pt_cell_layout _ _
        (pivot_find "n_samples" "n_features" "speedup" (selected df a)))
        by done.
      by rewrite pivot_find_none.
    + intros Hall i c Hi Hc.
      destruct (Hall i c Hi Hc) as (r & I & [= <- <-] & [v Hval]).
      exists v. by rewrite Hcell, Hval.
  - by apply pivot_Raise.
Qed.
Lemma group_key_Some k1 k2 r a n :
  group_key k1 k2 r = Some (a, n) ↔
  cell r k1 = Some a ∧ cell r k2 = Some n ∧
  isna (Some a) = false ∧ isna (Some n) = false.
Proof.
  unfold group_key.
  destruct (cell r k1) as [a'|], (cell r k2) as [n'|];
    try (split; [discriminate | intros (? & ? & _); discriminate]).
  destruct (isna (Some a')) eqn:Ea, (isna (Some n')) eqn:En; cbn [orb]; split;
    try discriminate;
    try (intros ([= <-] & [= <-] & ? & ?); congruence).
  by intros [= <- <-].
Qed.

Lemma fst_fmap_pair {A B} (f : A → B) (l : list A) :
  ((λ k, (k, f k)) <$> l).*1 = l.
Proof. induction l as [|x l IH]; cbn; [done|]. by rewrite IH. Qed.

(** (C7, as the code has it) The aggregation step returns one entry per
    distinct pair of algorithm and row count, and the entry holds the mean
    of the speedups of all rows with that algorithm and that row count,
    whatever their feature counts. *)
Theorem chart_all_algo_speedup_groups (mean : list value → float) df :
  "algo" ∈ columns df → "n_samples" ∈ columns df → "speedup" ∈ columns df →
  (∀ r, r ∈ rows df → is_text (cell r "speedup") = false) →
  ∃ t, chart_all_algo_speedup mean df = Return t ∧
    NoDup t.*1 ∧
    (∀ k, k ∈ t.*1 ↔
       ∃ r, r ∈ rows df ∧ group_key "algo" "n_samples" r = Some k) ∧
    (∀ a n m, ((a, n), m) ∈ t →
       m = mean (omap (λ r, present (cell r "speedup"))
                   (filter (λ r, cell r "algo" = Some a ∧
                                 cell r "n_samples" = Some n) (rows df)))).
Proof.
  intros Ha Hs Hv Hnum. unfold chart_all_algo_speedup, groupby_mean.
  rewrite !filter_cons, filter_nil.
  rewrite !decide_False by (by intros N; apply N).
  destruct (existsb _ (rows df)) eqn:E.
  { apply existsb_exists in E as (r & I & Hr).
    apply list_elem_of_In, Hnum in I. congruence. }
  eexists. split; [reflexivity|]. rewrite fst_fmap_pair.
  assert (∀ k, k ∈ merge_sort key_le
                 (remove_dups (omap (group_key "algo" "n_samples") (rows df)))
            ↔ ∃ r, r ∈ rows df ∧ group_key "algo" "n_samples" r = Some k)
    as Hkeys.
  { intros k.
    by rewrite merge_sort_Permutation, elem_of_remove_dups, list_elem_of_omap. }
  split; [rewrite merge_sort_Permutation; apply NoDup_remove_dups|].
  split; [done|].
  intros a n m (k & [= <- ->] & Hk)%list_elem_of_fmap.
  apply Hkeys in Hk as (r0 & _ & Hr0).
  apply group_key_Some in Hr0 as (_ & _ & Hna & Hnn).
  f_equal. f_equal. unfold group_rows. apply list_filter_iff. intros r.
  rewrite group_key_Some. tauto.
Qed.
End PandasFacts.

(** ** The CSV export *)

Section CsvExport.
Context {AlgoPair Kwargs : Type}.
Variable algorithm_by_name : string → outcome AlgoPair.
Implicit Types (r : @Runner AlgoPair Kwargs) (a : string) (st : session).

Lemma has_tags_tag a r d : has_tags (tag a r d).
Proof.
  unfold has_tags. rewrite tag_algo, tag_dataset_name, tag_input_type.
  by repeat split.
Qed.

(** Every record accumulated through [execute_benchmark] carries the tags. *)
Lemma run_cells_tagged (cs : list (@call AlgoPair Kwargs)) st :
  Forall (λ c, well_behaved (c_runner c)) cs →
  results_live st → Forall has_tags (records st) →
  Forall has_tags (records (run_cells algorithm_by_name cs st)).
Proof.
  intros Hwb. revert st. induction Hwb as [|c cs Hc _ IH]; intros st Hl Ht.
  - done.
  - cbn [run_cells]. unfold exec.
    destruct (execute_benchmark_appends algorithm_by_name (c_algorithm c) (c_runner c)
      (c_verbose c) (c_run_cpu c) (c_kwargs c) st Hc Hl)
      as (new & Hnew & Hold & Hl' & Htag).
    apply IH; [done|].
    destruct (execute_benchmark _ _ _ _ _ _ st).1 as [h' rs'].
    cbn [heap benchmark_results] in *. subst rs'.
    rewrite (records_extend h' new st) by done. apply Forall_app. split; [done|].
    rewrite Forall_forall. intros d (l & I & Hd)%list_elem_of_omap.
    destruct (Htag l I) as [d0 Hd0]. rewrite Hd0 in Hd.
    injection Hd as <-. apply has_tags_tag.
Qed.
End CsvExport.

(** ** Concrete sessions *)

Section StubRunners.
Import Examples.

Lemma alloc_all_spec ds (h h' : gmap nat pydict) ls :
  alloc_all ds h = (h', ls) →
  (∀ l d, h !! l = Some d → h' !! l = Some d) ∧
  Forall (λ l, h !! l = None ∧ is_Some (h' !! l)) ls.
Proof.
  revert h h' ls. induction ds as [|d ds IH]; intros h h' ls; cbn.
  - intros [= <- <-]. by split.
  - destruct (alloc_all ds _) as [h2 ls2] eqn:E. intros [= <- <-].
    destruct (IH _ _ _ E) as [Hk Hf].
    assert (h !! fresh (dom h) = None) as Hnone
      by apply not_elem_of_dom, is_fresh.
    split.
    + intros l x Hl. apply Hk. rewrite lookup_insert_ne; [done|].
      intros <-. congruence.
    + constructor.
      * split; [done|]. exists d. apply Hk, lookup_insert_eq.
      * eapply Forall_impl; [apply Hf|]. cbn. intros l [Hl ?].
        split; [|done]. by apply lookup_insert_None in Hl as [? _].
Qed.

Lemma stub_runner_well_behaved dataset ds :
  well_behaved (stub_runner dataset ds).
Proof.
  split.
  - intros p v c k h h' ls. cbn.
    destruct (alloc_all ds h) as [h2 ls2] eqn:E. intros [= <- <-].
    eapply Forall_impl; [apply (alloc_all_spec _ _ _ _ E)|]. by intros l [_ ?].
  - intros p v c k h h' ls. cbn.
    destruct (alloc_all ds h) as [h2 ls2] eqn:E. intros [= <- <-].
    eapply Forall_impl; [apply (alloc_all_spec _ _ _ _ E)|]. by intros l [? _].
  - intros p v c k h h' o. cbn.
    destruct (alloc_all ds h) as [h2 ls2] eqn:E. intros [= <- <-].
    apply (alloc_all_spec _ _ _ _ E).
Qed.

Lemma failing_runner_keeps e : keeps_store (failing_runner e).
Proof. intros p v c k h h' o. cbn. by intros [= <- <-]. Qed.
End StubRunners.

Section Concrete.
Import Pandas Examples.

Lemma enrich_result_frame_witness :
  ({[0%nat := timing 16384 32 1 4]} : gmap nat pydict) !! 0%nat
    = Some (timing 16384 32 1 4) ∧
  (enrich_result "KMeans" (stub_runner "blobs" one_point) 0%nat
     {[0%nat := timing 16384 32 1 4]}).2 = 0%nat ∧
  ∃ d', (enrich_result "KMeans" (stub_runner "blobs" one_point) 0%nat
           {[0%nat := timing 16384 32 1 4]}).1 !! 0%nat = Some d' ∧
        (∀ k, ¬ is_tag k → dict_get k d' = dict_get k (timing 16384 32 1 4)).
Proof.
  assert (({[0%nat := timing 16384 32 1 4]} : gmap nat pydict) !! 0%nat
            = Some (timing 16384 32 1 4)) as Hl by reflexivity.
  split; [exact Hl|].
  destruct (enrich_result_frame "KMeans" (stub_runner "blobs" one_point) 0%nat
              {[0%nat := timing 16384 32 1 4]} (timing 16384 32 1 4) Hl)
    as (Href & _ & _ & d' & Hd' & Hkeep & _).
  split; [exact Href|]. exists d'. split; [exact Hd' | exact Hkeep].
Defined.

Lemma execute_benchmark_tags_witness :
  returns_live (stub_runner "blobs" one_point) ∧
  execute_benchmark by_name "KMeans" (stub_runner "blobs" one_point)
    true true tt initial = (session_of "KMeans" one_point, Return tt) ∧
  ∀ l, l ∈ drop (length (benchmark_results initial))
             (benchmark_results (session_of "KMeans" one_point)) →
    ∃ d, heap (session_of "KMeans" one_point) !! l = Some d ∧
         dict_get "algo" d = Some (VStr "KMeans") ∧
         dict_get "dataset_name" d = Some (VStr "blobs") ∧
         dict_get "input_type" d = Some (VStr "numpy").
Proof.
  split; [apply stub_runner_well_behaved|].
  split; [vm_compute; reflexivity|].
  apply (execute_benchmark_tags by_name "KMeans" (stub_runner "blobs" one_point)
           true true tt initial (session_of "KMeans" one_point)).
  - apply stub_runner_well_behaved.
  - vm_compute; reflexivity.
Defined.

Lemma results_live_session_of a ds : results_live (session_of a ds).
Proof.
  unfold session_of. cbn [run_cells]. unfold exec. cbn [c_algorithm c_runner
    c_verbose c_run_cpu c_kwargs].
  destruct (execute_benchmark_appends by_name a (stub_runner "blobs" ds)
              true true tt initial) as (_ & _ & _ & H & _); [| |exact H].
  - apply stub_runner_well_behaved.
  - constructor.
Qed.

Lemma execute_benchmark_propagates_witness :
  keeps_store (failing_runner (External 1)) ∧
  results_live (session_of "KMeans" one_point) ∧
  by_name "TSNE" = Return tt ∧
  run (failing_runner (External 1)) tt true false tt
    (heap (session_of "KMeans" one_point))
    = (heap (session_of "KMeans" one_point), Raise (External 1)) ∧
  ∃ st', execute_benchmark by_name "TSNE" (failing_runner (External 1))
           true false tt (session_of "KMeans" one_point)
           = (st', Raise (External 1)) ∧
         benchmark_results st'
           = benchmark_results (session_of "KMeans" one_point) ∧
         records st' = records (session_of "KMeans" one_point).
Proof.
  split; [apply failing_runner_keeps|].
  split; [apply results_live_session_of|].
  split; [reflexivity|]. split; [reflexivity|].
  apply (execute_benchmark_propagates by_name "TSNE"
           (failing_runner (External 1)) true false tt
           (session_of "KMeans" one_point) tt
           (heap (session_of "KMeans" one_point)) (External 1)
           (failing_runner_keeps _) (results_live_session_of _ _)
           eq_refl eq_refl).
Defined.
(** (C6) A frame on which the pivot step fails: the k-means cell run twice
    leaves two records of one algorithm with one shape, and so does a
    runner that reports a record for each of two repetitions of a
    one-point sweep. *)
Lemma chart_single_algo_speedup_duplicates :
  chart_single_algo_speedup (frame_of (rerun "KMeans" one_point)) "KMeans"
    = Raise (ValueError "Index contains duplicate entries, cannot reshape") ∧
  chart_single_algo_speedup
    (frame_of (session_of "KMeans" two_repetitions)) "KMeans"
    = Raise (ValueError "Index contains duplicate entries, cannot reshape").
Proof. split; vm_compute; reflexivity. Qed.

Lemma chart_single_algo_speedup_pivot_witness :
  "algo" ∈ columns (frame_of (session_of "KMeans" two_features)) ∧
  "n_samples" ∈ columns (frame_of (session_of "KMeans" two_features)) ∧
  "n_features" ∈ columns (frame_of (session_of "KMeans" two_features)) ∧
  "speedup" ∈ columns (frame_of (session_of "KMeans" two_features)) ∧
  NoDup (shape <$>
           selected (frame_of (session_of "KMeans" two_features)) "KMeans") ∧
  ∃ t, chart_single_algo_speedup
         (frame_of (session_of "KMeans" two_features)) "KMeans" = Return t ∧
       pt_cell t (Some (VInt 16384)) (Some (VInt 256)) = Some (Some (VFloat 4)).
Proof.
  assert (NoDup (shape <$>
            selected (frame_of (session_of "KMeans" two_features)) "KMeans"))
    as Hnd by compute_done.
  assert ("algo" ∈ columns (frame_of (session_of "KMeans" two_features)))
    as H1 by compute_done.
  assert ("n_samples" ∈ columns (frame_of (session_of "KMeans" two_features)))
    as H2 by compute_done.
  assert ("n_features" ∈ columns (frame_of (session_of "KMeans" two_features)))
    as H3 by compute_done.
  assert ("speedup" ∈ columns (frame_of (session_of "KMeans" two_features)))
    as H4 by compute_done.
  repeat (split; [assumption|]).
  destruct (proj1 (chart_single_algo_speedup_pivot
                     (frame_of (session_of "KMeans" two_features)) "KMeans"
                     H1 H2 H3 H4) Hnd)
    as (t & Ht & _ & _ & _ & _ & Hcell & _).
  exists t. split; [exact Ht|].
  apply (Hcell (tag "KMeans" (stub_runner "blobs" two_features)
                  (timing 16384 256 1 4))).
  compute_done.
Defined.

(** (C7) Two records of one algorithm and one row count with feature
    counts 32 and 256 end in a single entry of the aggregated table. *)
Lemma chart_all_algo_speedup_merges_features :
  (λ r, cell r "n_features")
    <$> rows (frame_of (session_of "KMeans" two_features))
    = [Some (VInt 32); Some (VInt 256)] ∧
  chart_all_algo_speedup group_mean
    (frame_of (session_of "KMeans" two_features))
    = Return [((VStr "KMeans", VInt 16384), 3%float)].
Proof. split; vm_compute; reflexivity. Qed.

Lemma chart_all_algo_speedup_groups_witness :
  "algo" ∈ columns (frame_of (session_of "KMeans" two_features)) ∧
  "n_samples" ∈ columns (frame_of (session_of "KMeans" two_features)) ∧
  "speedup" ∈ columns (frame_of (session_of "KMeans" two_features)) ∧
  (∀ r, r ∈ rows (frame_of (session_of "KMeans" two_features)) →
     is_text (cell r "speedup") = false) ∧
  ∃ t, chart_all_algo_speedup group_mean
         (frame_of (session_of "KMeans" two_features)) = Return t ∧
       NoDup t.*1.
Proof.
  assert ("algo" ∈ columns (frame_of (session_of "KMeans" two_features)))
    as H1 by compute_done.
  assert ("n_samples" ∈ columns (frame_of (session_of "KMeans" two_features)))
    as H2 by compute_done.
  assert ("speedup" ∈ columns (frame_of (session_of "KMeans" two_features)))
    as H3 by compute_done.
  assert (∀ r, r ∈ rows (frame_of (session_of "KMeans" two_features)) →
            is_text (cell r "speedup") = false) as H4.
  { apply Forall_forall. compute_done. }
  repeat (split; [assumption|]).
  destruct (chart_all_algo_speedup_groups group_mean
              (frame_of (session_of "KMeans" two_features)) H1 H2 H3 H4)
    as (t & Ht & Hnd & _).
  exists t. split; [exact Ht | exact Hnd].
Defined.

(** (C8) The header of the exported table for a session with one record:
    the algorithm identifier is in the column [algo], and no column is
    named [algorithm]. *)
Lemma to_csv_header_has_no_algorithm :
  header (to_csv (frame_of (session_of "KMeans" one_point)))
    = [""; "cuml_time"; "cpu_time"; "speedup"; "n_samples"; "n_features";
       "algo"; "dataset_name"; "input_type"] ∧
  "algorithm" ∉ header (to_csv (frame_of (session_of "KMeans" one_point))).
Proof.
  split; compute_done.
Qed.
End Concrete.

(** ** More on dictionaries and tagging *)

Section DictOrder.
Implicit Types (k : string) (v : value) (d : pydict).

Lemma dict_set_set k v v' d : dict_set k v' (dict_set k v d) = dict_set k v' d.
Proof.
  induction d as [|[k0 v0] d IH]; cbn.
  - by rewrite decide_True.
  - destruct (decide (k0 = k)) as [->|N]; cbn.
    + by rewrite decide_True.
    + by rewrite decide_False, IH.
Qed.

Lemma dict_set_comm k k2 v v2 d :
  k ≠ k2 → is_Some (dict_get k d) →
  dict_set k v (dict_set k2 v2 d) = dict_set k2 v2 (dict_set k v d).
Proof.
  intros N. induction d as [|[k0 v0] d IH]; cbn.
  - by intros [? ?].
  - destruct (decide (k0 = k)) as [->|N0].
    + intros _. rewrite decide_False by done. cbn.
      rewrite decide_True by done. by rewrite decide_False.
    + intros H. destruct (decide (k0 = k2)) as [->|N2]; cbn.
      * rewrite decide_False by done. by rewrite decide_True.
      * rewrite !decide_False by done. by rewrite IH.
Qed.

Lemma dict_keys_set k v d :
  dict_keys (dict_set k v d) =
    if decide (k ∈ dict_keys d) then dict_keys d else dict_keys d ++ [k].
Proof.
  unfold dict_keys. induction d as [|[k0 v0] d IH]; cbn.
  - by rewrite decide_False by apply not_elem_of_nil.
  - destruct (decide (k0 = k)) as [->|N]; cbn.
    + by rewrite decide_True by apply list_elem_of_here.
    + rewrite IH. destruct (decide (k ∈ d.*1)) as [I|I].
      * by rewrite decide_True by (by apply list_elem_of_further).
      * rewrite decide_False; [done|].
        intros [E|E]%elem_of_cons; congruence.
Qed.
End DictOrder.

Section Retagging.
Context {AlgoPair Kwargs : Type}.
Implicit Types (r : @Runner AlgoPair Kwargs) (h : gmap nat pydict) (a : string).

(** Tagging a tagged record again replaces the three tags where they
    stand. *)
Lemma tag_tag a a' r r' d : tag a' r' (tag a r d) = tag a' r' d.
Proof.
  unfold tag.
  rewrite (dict_set_comm "algo" "input_type"); [|done|].
  2:{ rewrite dict_get_set_ne by done. rewrite dict_get_set_eq. by eexists. }
  rewrite (dict_set_comm "algo" "dataset_name"); [|done|].
  2:{ rewrite dict_get_set_eq. by eexists. }
  rewrite dict_set_set.
  rewrite (dict_set_comm "dataset_name" "input_type"); [|done|].
  2:{ rewrite dict_get_set_eq. by eexists. }
  by rewrite !dict_set_set.
Qed.

Lemma tag_keys a r d :
  dict_keys (tag a r d) =
    dict_keys d ++
      filter (λ k, k ∉ dict_keys d) ["algo"; "dataset_name"; "input_type"].
Proof.
  unfold tag. rewrite !dict_keys_set, !filter_cons, filter_nil.
  repeat case_decide; rewrite <- ?app_assoc, ?app_nil_r; try done; exfalso;
    repeat match goal with
    | H : _ |- _ =>
        progress rewrite ?elem_of_app, ?elem_of_cons, ?elem_of_nil in H
    end;
    intuition discriminate.
Qed.

(** (X3) Enriching a record that was enriched before overwrites its three
    tags: the outcome is that of the second call alone, the first call
    leaves no trace.  In particular enriching twice with the same arguments
    is enriching once. *)
Theorem enrich_result_overwrites a a' r r' l h :
  enrich_result a' r' l (enrich_result a r l h).1 = enrich_result a' r' l h.
Proof.
  rewrite !enrich_result_alter. cbn [fst]. f_equal.
  rewrite alter_alter_eq. apply alter_ext. intros d _. apply tag_tag.
Qed.

(** (X4) In the record, [enrich_result] keeps the keys that were there in
    their order, and puts the tags the record did not have after them, in
    the order [algo], [dataset_name], [input_type]. *)
Theorem enrich_result_key_order a r l h d :
  h !! l = Some d →
  ∃ d', (enrich_result a r l h).1 !! l = Some d' ∧
        dict_keys d' =
          dict_keys d ++
            filter (λ k, k ∉ dict_keys d)
                   ["algo"; "dataset_name"; "input_type"].
Proof.
  intros Hl. exists (tag a r d). rewrite enrich_result_alter. cbn [fst].
  rewrite lookup_alter_eq, Hl. split; [done | apply tag_keys].
Qed.
End Retagging.

(** ** More on [execute_benchmark] and on sessions *)

Section Sessions.
Context {AlgoPair Kwargs : Type}.
Variable algorithm_by_name : string → outcome AlgoPair.
Implicit Types (r : @Runner AlgoPair Kwargs) (h : gmap nat pydict)
  (a : string) (st : session) (cs : list (@call AlgoPair Kwargs)).

(** (X2) A raising invocation appends nothing, and the exception is the one
    raised by [algorithm_by_name], in which case the runner was not run and
    the session is untouched, or the one raised by [runner.run]. *)
Theorem execute_benchmark_all_or_nothing a r v c k st st' e :
  execute_benchmark algorithm_by_name a r v c k st = (st', Raise e) →
  benchmark_results st' = benchmark_results st ∧
  ((algorithm_by_name a = Raise e ∧ st' = st) ∨
   (∃ p, algorithm_by_name a = Return p ∧
         run r p v c k (heap st) = (heap st', Raise e))).
Proof.
  rewrite execute_benchmark_eq.
  destruct (algorithm_by_name a) as [p|e0].
  - destruct (run r p v c k (heap st)) as [h1 [ls|e1]] eqn:Hrun; [done|].
    intros [= <- <-]. split; [done|]. right. by exists p.
  - intros [= <- <-]. split; [done|]. by left.
Qed.

Lemma omap_enrich_all a r ls (h1 : gmap nat pydict) ls' :
  ls' ⊆ ls →
  omap (λ l, (enrich_all a r ls h1).1 !! l) ls'
    = tag a r <$> omap (λ l, h1 !! l) ls'.
Proof.
  induction ls' as [|l ls' IH]; intros Hsub; [done|].
  cbn. rewrite enrich_all_lookup.
  rewrite decide_True by (apply Hsub, list_elem_of_here).
  rewrite IH by (intros x I; by apply Hsub, list_elem_of_further).
  by destruct (h1 !! l).
Qed.

(** The records of a session after one invocation: those before, then the
    records the runner returned, tagged. *)
Lemma execute_benchmark_records a r v c k st :
  well_behaved r → results_live st →
  records (execute_benchmark algorithm_by_name a r v c k st).1 =
    records st ++
      match algorithm_by_name a with
      | Return p =>
          match run r p v c k (heap st) with
          | (h1, Return ls) => tag a r <$> omap (λ l, h1 !! l) ls
          | (_, Raise _) => []
          end
      | Raise _ => []
      end.
Proof.
  intros Hwb Hlive.
  destruct (execute_benchmark_appends algorithm_by_name a r v c k st Hwb Hlive)
    as (new & Hnew & Hold & _ & _).
  revert Hnew Hold. rewrite execute_benchmark_eq.
  destruct (algorithm_by_name a) as [p|e]; [|by rewrite app_nil_r].
  destruct (run r p v c k (heap st)) as [h1 [ls|e]] eqn:Hrun;
    cbn [fst heap benchmark_results]; intros Hnew Hold.
  - rewrite records_extend by done. f_equal. by apply omap_enrich_all.
  - rewrite <- (app_nil_r (benchmark_results st)) at 1.
    by rewrite records_extend.
Qed.

Lemma exec_live (c : @call AlgoPair Kwargs) st :
  well_behaved (c_runner c) → results_live st →
  results_live (exec algorithm_by_name c st).1.
Proof.
  intros Hwb Hlive. unfold exec.
  by destruct (execute_benchmark_appends algorithm_by_name (c_algorithm c)
    (c_runner c) (c_verbose c) (c_run_cpu c) (c_kwargs c) st Hwb Hlive)
    as (? & _ & _ & ? & _).
Qed.

Lemma run_cells_records_prefix cs st :
  Forall (λ c, well_behaved (c_runner c)) cs → results_live st →
  records st `prefix_of` records (run_cells algorithm_by_name cs st).
Proof.
  intros Hwb. revert st. induction Hwb as [|c cs Hc _ IH]; intros st Hlive.
  - done.
  - cbn [run_cells]. etrans; [|apply IH, exec_live; done].
    unfold exec. rewrite execute_benchmark_records by done.
    by apply prefix_app_r.
Qed.

Lemma run_cells_from pre cs st :
  Forall (λ c, well_behaved (c_runner c)) cs → results_live st →
  Forall (from_cell pre) (records st) →
  Forall (from_cell (pre ++ cs)) (records (run_cells algorithm_by_name cs st)).
Proof.
  intros Hwb. revert pre st.
  induction Hwb as [|c cs Hc _ IH]; intros pre st Hlive Hfrom.
  - by rewrite app_nil_r.
  - cbn [run_cells]. rewrite (cons_middle c pre cs), app_assoc.
    apply IH; [by apply exec_live|].
    unfold exec. rewrite execute_benchmark_records by done.
    apply Forall_app. split.
    + eapply Forall_impl; [exact Hfrom|]. intros d (c0 & I & H).
      exists c0. split; [|done]. apply elem_of_app. by left.
    + assert (∀ ds, Forall (from_cell (pre ++ [c]))
                      (tag (c_algorithm c) (c_runner c) <$> ds)) as Htag.
      { intros ds. apply Forall_fmap, Forall_forall. intros d _.
        exists c. split; [apply elem_of_app; right; apply list_elem_of_here|].
        cbn. by rewrite tag_algo, tag_dataset_name, tag_input_type. }
      destruct (algorithm_by_name _) as [p|e]; [|constructor].
      destruct (run _ _ _ _ _ _) as [h1 [ls|e]]; [apply Htag | constructor].
Qed.

(** (X10) Every record accumulated by a run of benchmark cells from the
    empty session carries the algorithm name of one of these cells, with the
    data set name and the input type of that cell's runner. *)
Theorem run_cells_provenance cs d :
  Forall (λ c, well_behaved (c_runner c)) cs →
  d ∈ records (run_cells algorithm_by_name cs initial) →
  ∃ c, c ∈ cs ∧
       dict_get "algo" d = Some (VStr (c_algorithm c)) ∧
       dict_get "dataset_name" d = Some (dataset_name (c_runner c)) ∧
       dict_get "input_type" d = Some (input_type (c_runner c)).
Proof.
  intros Hwb Hd.
  assert (Forall (from_cell ([] ++ cs))
            (records (run_cells algorithm_by_name cs initial))) as H
    by (apply run_cells_from; [done | constructor | constructor]).
  rewrite Forall_forall in H. apply (H d Hd).
Qed.

(** (X12) [execute_benchmark] writes into the dictionaries the runner hands
    over, it does not copy them: when the runner returns a dictionary that
    the sequence already holds at position [i], that earlier entry is tagged
    anew, with the algorithm name and runner of the present call. *)
Theorem execute_benchmark_retags_shared a r v c k st p h1 ls i l d :
  algorithm_by_name a = Return p →
  run r p v c k (heap st) = (h1, Return ls) →
  benchmark_results st !! i = Some l →
  l ∈ ls →
  h1 !! l = Some d →
  benchmark_results (execute_benchmark algorithm_by_name a r v c k st).1 !! i
    = Some l ∧
  heap (execute_benchmark algorithm_by_name a r v c k st).1 !! l
    = Some (tag a r d) ∧
  dict_get "algo" (tag a r d) = Some (VStr a).
Proof.
  intros Hp Hrun Hi Hl Hd. rewrite execute_benchmark_eq, Hp, Hrun.
  cbn [fst heap benchmark_results].
  split; [by apply lookup_app_l_Some|].
  split; [|apply tag_algo].
  by rewrite enrich_all_lookup, Hd, decide_True.
Qed.
End Sessions.

(** ** More on frames, charts and the export *)

Section FrameEdges.
Import Pandas.
Implicit Types (df : DataFrame) (r : pydict).

Lemma filter_none {A} (P : A → Prop) `{∀ x, Decision (P x)} (l : list A) :
  Forall (λ x, ¬ P x) l → filter P l = [].
Proof.
  induction 1 as [|x l Hx _ IH]; [done|].
  by rewrite filter_cons, decide_False.
Qed.

Lemma filter_all {A} (P : A → Prop) `{∀ x, Decision (P x)} (l : list A) :
  Forall P l → filter P l = l.
Proof.
  induction 1 as [|x l Hx _ IH]; [done|].
  by rewrite filter_cons, decide_True, IH.
Qed.

Lemma first_seen_app seen l1 l2 :
  ∃ seen', first_seen seen (l1 ++ l2)
             = first_seen seen l1 ++ first_seen seen' l2.
Proof.
  revert seen. induction l1 as [|x l1 IH]; intros seen; cbn.
  - by exists seen.
  - case_decide.
    + apply IH.
    + destruct (IH (x :: seen)) as [seen' ->]. by exists seen'.
Qed.

(** Records put after others add their new keys to the right of the
    columns there are. *)
Lemma from_records_app_prefix ds1 ds2 :
  columns (from_records ds1) `prefix_of` columns (from_records (ds1 ++ ds2)).
Proof.
  cbn. rewrite bind_app.
  destruct (first_seen_app [] (ds1 ≫= dict_keys) (ds2 ≫= dict_keys))
    as [seen' ->].
  by eexists.
Qed.

(** (X7) With no record accumulated the frame has no column: the pivot
    cell fails on [df.algo], the aggregation cell on the column selection,
    and the export writes the header of the index column and no line. *)
Theorem empty_session_cells st mean a :
  records st = [] →
  (chart_single_cell a st).2 = Raise (AttributeError "algo") ∧
  (chart_all_cell mean st).2 = Raise (KeyError "algo") ∧
  (to_csv_cell st).2 = Return {| header := [""]; lines := [] |}.
Proof.
  intros E.
  unfold chart_single_cell, chart_all_cell, to_csv_cell, to_dataframe,
    mbind, M_bind, mret, M_ret, lift.
  rewrite E. by cbn.
Qed.

(** (X8) The pivot step on a frame that lacks a column it uses: without
    [algo] it raises on the attribute [df.algo]; with [algo] but without one
    of [n_samples], [n_features], [speedup] it raises a key error that names
    a missing one of these. *)
Theorem chart_single_algo_speedup_missing_column df a :
  ¬ ("algo" ∈ columns df ∧ "n_samples" ∈ columns df ∧
     "n_features" ∈ columns df ∧ "speedup" ∈ columns df) →
  (("algo" ∉ columns df) ∧
   chart_single_algo_speedup df a = Raise (AttributeError "algo")) ∨
  (∃ k, k ∈ ["n_samples"; "n_features"; "speedup"] ∧ (k ∉ columns df) ∧
        "algo" ∈ columns df ∧
        chart_single_algo_speedup df a = Raise (KeyError k)).
Proof.
  intros Hmiss. unfold chart_single_algo_speedup.
  destruct (decide ("algo" ∈ columns df)) as [Ha|Ha].
  - right. rewrite loc_algo_selected by done. unfold pivot. cbn [columns].
    destruct (decide ("n_samples" ∉ columns df)) as [N1|N1].
    { exists "n_samples". repeat split; try done. apply list_elem_of_here. }
    destruct (decide ("n_features" ∉ columns df)) as [N2|N2].
    { exists "n_features". repeat split; try done.
      apply list_elem_of_further, list_elem_of_here. }
    destruct (decide ("speedup" ∉ columns df)) as [N3|N3].
    { exists "speedup". repeat split; try done.
      do 2 apply list_elem_of_further. apply list_elem_of_here. }
    destruct Hmiss. apply dec_stable in N1, N2, N3. done.
  - left. split; [done|]. unfold loc_algo. by rewrite decide_False.
Qed.

(** (X9) The aggregation step on a frame that lacks one of the columns
    [algo], [n_samples], [speedup] raises a key error that names a missing
    one of these. *)
Theorem chart_all_algo_speedup_missing_column (mean : list value → float) df :
  ¬ ("algo" ∈ columns df ∧ "n_samples" ∈ columns df ∧
     "speedup" ∈ columns df) →
  ∃ k, k ∈ ["algo"; "n_samples"; "speedup"] ∧ (k ∉ columns df) ∧
       chart_all_algo_speedup mean df = Raise (KeyError k).
Proof.
  intros Hmiss. unfold chart_all_algo_speedup, groupby_mean.
  rewrite !filter_cons, filter_nil.
  destruct (decide ("algo" ∉ columns df)) as [N1|N1].
  { exists "algo". repeat split; try done. apply list_elem_of_here. }
  destruct (decide ("n_samples" ∉ columns df)) as [N2|N2].
  { exists "n_samples". repeat split; try done.
    apply list_elem_of_further, list_elem_of_here. }
  destruct (decide ("speedup" ∉ columns df)) as [N3|N3].
  { exists "speedup". repeat split; try done.
    do 2 apply list_elem_of_further. apply list_elem_of_here. }
  destruct Hmiss. apply dec_stable in N1, N2, N3. done.
Qed.

(** (X11) The pivot step for an algorithm of which the frame has no record
    returns the table with no row label, no column label and no value. *)
Theorem chart_single_algo_speedup_unknown df a :
  "algo" ∈ columns df → "n_samples" ∈ columns df →
  "n_features" ∈ columns df → "speedup" ∈ columns df →
  (∀ r, r ∈ rows df → cell r "algo" ≠ Some (VStr a)) →
  chart_single_algo_speedup df a
    = Return {| pt_index := []; pt_columns := []; pt_values := [] |}.
Proof.
  intros Ha Hs Hf Hv Hnone. unfold chart_single_algo_speedup.
  rewrite loc_algo_selected by done.
  assert (selected df a = []) as ->
    by (apply filter_none, Forall_forall; exact Hnone).
  rewrite pivot_Return by (done || constructor). reflexivity.
Qed.

(** (X13) Whenever the pivot step returns a table, the frame had the four
    columns and the rows of the algorithm had pairwise distinct shapes; the
    table has a row of values for each row label and, in each row, a value
    or a missing cell for each column label. *)
Theorem chart_single_algo_speedup_Return df a t :
  chart_single_algo_speedup df a = Return t →
  ("algo" ∈ columns df ∧ "n_samples" ∈ columns df ∧
   "n_features" ∈ columns df ∧ "speedup" ∈ columns df) ∧
  NoDup (shape <$> selected df a) ∧
  length (pt_values t) = length (pt_index t) ∧
  Forall (λ row, length row = length (pt_columns t)) (pt_values t).
Proof.
  unfold chart_single_algo_speedup.
  destruct (decide ("algo" ∈ columns df)) as [Ha|Ha].
  2:{ unfold loc_algo. by rewrite decide_False. }
  rewrite loc_algo_selected by done. unfold pivot. cbn [columns rows].
  repeat case_decide; try done. intros [= <-]. cbn.
  repeat match goal with H : ¬ _ ∉ _ |- _ => apply dec_stable in H end.
  split; [done|]. split; [done|]. split; [by rewrite length_fmap|].
  apply Forall_fmap, Forall_forall. intros i _. cbn. by rewrite length_fmap.
Qed.
End FrameEdges.

(** ** Frames of a session *)

Section SessionFrames.
Import Pandas.
Context {AlgoPair Kwargs : Type}.
Variable algorithm_by_name : string → outcome AlgoPair.
Implicit Types (r : @Runner AlgoPair Kwargs) (a : string) (st : session)
  (cs : list (@call AlgoPair Kwargs)).

(** (X5) Benchmark cells run later never move or remove a column of the
    exported table: the header written before them is a prefix of the
    header written after them, new keys become new columns on the right. *)
Theorem to_csv_header_grows cs st :
  Forall (λ c, well_behaved (c_runner c)) cs →
  results_live st →
  header (to_csv (from_records (records st))) `prefix_of`
    header (to_csv (from_records
                      (records (run_cells algorithm_by_name cs st)))).
Proof.
  intros Hwb Hlive.
  destruct (run_cells_records_prefix algorithm_by_name cs st Hwb Hlive)
    as [new ->].
  cbn [to_csv header]. apply prefix_cons, from_records_app_prefix.
Qed.

Lemma shape_tag a r (d : pydict) : shape (tag a r d) = shape d.
Proof.
  unfold shape, cell. f_equal; apply tag_other; unfold is_tag;
    intros H; decompose [or] H; discriminate.
Qed.

(** The rows of an algorithm keep distinct shapes when every algorithm is
    benchmarked by one cell and every runner reports a shape once. *)
Lemma run_cells_distinct pre cs st :
  Forall (λ c, well_behaved (c_runner c)) cs →
  Forall (λ c, distinct_shapes (c_runner c)) cs →
  NoDup (algorithms (pre ++ cs)) →
  results_live st →
  Forall (from_cell pre) (records st) →
  (∀ a, NoDup (shape <$> filter (λ d, cell d "algo" = Some (VStr a))
                           (records st))) →
  ∀ a, NoDup (shape <$> filter (λ d, cell d "algo" = Some (VStr a))
                (records (run_cells algorithm_by_name cs st))).
Proof.
  intros Hwb. revert pre st.
  induction Hwb as [|c cs Hc Hwb IH]; intros pre st Hds Hnd Hlive Hfrom Hinv.
  - done.
  - apply Forall_cons in Hds as [Hd Hds]. cbn [run_cells].
    rewrite (cons_middle c pre cs), app_assoc in Hnd.
    apply (IH (pre ++ [c])); [done|done|by apply exec_live| |].
    + apply (run_cells_from algorithm_by_name pre [c] st); [|done..].
      by constructor.
    + intros a. unfold exec. rewrite execute_benchmark_records by done.
      assert (∃ ds,
        match algorithm_by_name (c_algorithm c) with
        | Return p =>
            match run (c_runner c) p (c_verbose c) (c_run_cpu c) (c_kwargs c)
                    (heap st) with
            | (h1, Return ls) =>
                tag (c_algorithm c) (c_runner c) <$> omap (λ l, h1 !! l) ls
            | (_, Raise _) => []
            end
        | Raise _ => []
        end = tag (c_algorithm c) (c_runner c) <$> ds
        ∧ NoDup (shape <$> ds)) as (ds & -> & Hshape).
      { destruct (algorithm_by_name _) as [p|e];
          [|exists []; split; [done | constructor]].
        destruct (run _ _ _ _ _ _) as [h1 [ls|e]] eqn:Hrun;
          [|exists []; split; [done | constructor]].
        eexists. split; [done|]. eapply Hd, Hrun. }
      rewrite filter_app, fmap_app.
      destruct (decide (a = c_algorithm c)) as [->|Na].
      * rewrite filter_none, filter_all.
        -- cbn. rewrite <- list_fmap_compose.
           erewrite list_fmap_ext; [exact Hshape|].
           intros _ d _. apply shape_tag.
        -- apply Forall_fmap, Forall_forall. intros d _. cbn.
           unfold cell. by rewrite tag_algo.
        -- eapply Forall_impl; [exact Hfrom|]. cbn.
           intros d (c0 & I & Hc0 & _) E. unfold cell in E.
           rewrite Hc0 in E. injection E as E.
           unfold algorithms in Hnd. rewrite !fmap_app in Hnd.
           apply NoDup_app in Hnd as [Hnd _].
           apply NoDup_app in Hnd as (_ & Hnd & _).
           apply (Hnd (c_algorithm c0)).
           ++ by apply list_elem_of_fmap_2.
           ++ rewrite E. apply list_elem_of_here.
      * rewrite (filter_none _ (tag _ _ <$> ds)).
        -- rewrite app_nil_r. apply Hinv.
        -- apply Forall_fmap, Forall_forall. intros d _. cbn.
           unfold cell. rewrite tag_algo. congruence.
Qed.

(** (X14) When every algorithm is benchmarked by one cell only and every
    runner reports each shape once, the rows of an algorithm have pairwise
    distinct shapes in the frame of the session, and the pivot step never
    raises the error of duplicate entries. *)
Theorem chart_single_once_per_algorithm cs a :
  Forall (λ c, well_behaved (c_runner c)) cs →
  Forall (λ c, distinct_shapes (c_runner c)) cs →
  NoDup (algorithms cs) →
  NoDup (shape <$>
           selected (from_records
                       (records (run_cells algorithm_by_name cs initial))) a) ∧
  ∀ msg,
    chart_single_algo_speedup
      (from_records (records (run_cells algorithm_by_name cs initial))) a
      ≠ Raise (ValueError msg).
Proof.
  intros Hwb Hds Hnd.
  assert (NoDup (shape <$>
            selected (from_records
                        (records (run_cells algorithm_by_name cs initial))) a))
    as Hshape.
  { apply (run_cells_distinct [] cs initial); try done; constructor. }
  split; [done|]. intros msg. unfold chart_single_algo_speedup.
  destruct (decide ("algo" ∈ columns (from_records
              (records (run_cells algorithm_by_name cs initial))))) as [Ha|Ha].
  - rewrite loc_algo_selected by done. unfold pivot. cbn [rows].
    by repeat case_decide.
  - unfold loc_algo. by rewrite decide_False.
Qed.
End SessionFrames.

(** ** More concrete sessions *)

Section ConcreteMore.
Import Pandas Examples MoreExamples.

Lemma alloc_all_records ds (h h' : gmap nat pydict) ls :
  alloc_all ds h = (h', ls) → omap (λ l, h' !! l) ls = ds.
Proof.
  revert h h' ls. induction ds as [|d ds IH]; intros h h' ls; cbn.
  - by intros [= <- <-].
  - destruct (alloc_all ds _) as [h2 ls2] eqn:E. intros [= <- <-].
    cbn. destruct (alloc_all_spec _ _ _ _ E) as [Hk _].
    rewrite (Hk _ d) by apply lookup_insert_eq.
    by rewrite (IH _ _ _ E).
Qed.

Lemma stub_runner_distinct_shapes dataset ds :
  NoDup (shape <$> ds) → distinct_shapes (stub_runner dataset ds).
Proof.
  intros Hnd p v c k h h' ls. cbn.
  destruct (alloc_all ds h) as [h2 ls2] eqn:E. intros [= <- <-].
  by rewrite (alloc_all_records _ _ _ _ E).
Qed.

Lemma execute_benchmark_forwards_witness :
  by_name "KMeans" = Return tt ∧
  run (stub_runner "blobs" one_point) tt VERBOSE RUN_CPU tt (heap initial)
    = ({[0%nat := timing 16384 32 1 4]}, Return [0%nat]) ∧
  benchmark_results
    (execute_benchmark by_name "KMeans" (stub_runner "blobs" one_point)
       VERBOSE RUN_CPU tt initial).1 = [0%nat] ∧
  (heap (execute_benchmark by_name "KMeans" (stub_runner "blobs" one_point)
           VERBOSE RUN_CPU tt initial).1 !! 0%nat) ≫= dict_get "speedup"
    = Some (VFloat 4).
Proof.
  assert (run (stub_runner "blobs" one_point) tt VERBOSE RUN_CPU tt
            (heap initial)
          = ({[0%nat := timing 16384 32 1 4]}, Return [0%nat])) as Hrun
    by (vm_compute; reflexivity).
  split; [reflexivity|]. split; [exact Hrun|].
  destruct (execute_benchmark_forwards by_name "KMeans"
              (stub_runner "blobs" one_point) VERBOSE RUN_CPU tt initial tt
              _ _ eq_refl Hrun) as [Hres Hkeys].
  split; [exact Hres|].
  rewrite (Hkeys 0%nat "speedup").
  - vm_compute. reflexivity.
  - unfold is_tag. intros H. decompose [or] H; discriminate.
Defined.

Lemma execute_benchmark_all_or_nothing_witness :
  execute_benchmark by_name "TSNE" (failing_runner (External 1))
    VERBOSE false tt (session_of "KMeans" one_point)
    = (session_of "KMeans" one_point, Raise (External 1)) ∧
  benchmark_results (session_of "KMeans" one_point)
    = benchmark_results (session_of "KMeans" one_point) ∧
  execute_benchmark no_such_name "TSNE" (stub_runner "blobs" one_point)
    VERBOSE false tt (session_of "KMeans" one_point)
    = (session_of "KMeans" one_point, Raise (External 2)).
Proof.
  assert (execute_benchmark by_name "TSNE" (failing_runner (External 1))
            VERBOSE false tt (session_of "KMeans" one_point)
          = (session_of "KMeans" one_point, Raise (External 1))) as H
    by (vm_compute; reflexivity).
  split; [exact H|].
  split; [exact (proj1 (execute_benchmark_all_or_nothing by_name _ _ _ _ _ _ _
                          _ H))|].
  vm_compute. reflexivity.
Defined.

Lemma enrich_result_key_order_witness :
  ({[0%nat := ("algo", VStr "old") :: shape_only 16384 32]}
     : gmap nat pydict) !! 0%nat
    = Some (("algo", VStr "old") :: shape_only 16384 32) ∧
  ∃ d', (enrich_result "KMeans" (stub_runner "blobs" one_point) 0%nat
           {[0%nat := ("algo", VStr "old") :: shape_only 16384 32]}).1 !! 0%nat
          = Some d' ∧
        dict_keys d'
          = ["algo"; "n_samples"; "n_features"; "dataset_name"; "input_type"].
Proof.
  assert (({[0%nat := ("algo", VStr "old") :: shape_only 16384 32]}
             : gmap nat pydict) !! 0%nat
          = Some (("algo", VStr "old") :: shape_only 16384 32)) as Hl
    by reflexivity.
  split; [exact Hl|].
  destruct (enrich_result_key_order "KMeans" (stub_runner "blobs" one_point)
              0%nat _ _ Hl) as (d' & Hd' & Hkeys).
  exists d'. split; [exact Hd'|]. rewrite Hkeys. vm_compute. reflexivity.
Defined.

Lemma to_csv_header_grows_witness :
  Forall (λ c, well_behaved (c_runner c))
    [Call "PCA" (stub_runner "blobs" [shape_only 16384 32]) VERBOSE RUN_CPU tt] ∧
  results_live (session_of "KMeans" one_point) ∧
  header (to_csv (frame_of (session_of "KMeans" one_point))) `prefix_of`
    header (to_csv (from_records (records (run_cells by_name
      [Call "PCA" (stub_runner "blobs" [shape_only 16384 32])
         VERBOSE RUN_CPU tt]
      (session_of "KMeans" one_point))))).
Proof.
  assert (Forall (λ c, well_behaved (c_runner c))
    [Call "PCA" (stub_runner "blobs" [shape_only 16384 32])
       VERBOSE RUN_CPU tt]) as Hwb
    by (repeat constructor; apply stub_runner_well_behaved).
  split; [exact Hwb|]. split; [apply results_live_session_of|].
  exact (to_csv_header_grows by_name _ _ Hwb (results_live_session_of _ _)).
Defined.

Lemma empty_session_cells_witness :
  records initial = [] ∧
  (chart_single_cell "LinearRegression" initial).2
    = Raise (AttributeError "algo").
Proof.
  split; [reflexivity|].
  exact (proj1 (empty_session_cells initial group_mean "LinearRegression"
                  eq_refl)).
Defined.
Lemma chart_single_algo_speedup_missing_column_witness :
  ¬ ("algo" ∈ columns (frame_of (session_of "KMeans" [shape_only 16384 32])) ∧
     "n_samples"
       ∈ columns (frame_of (session_of "KMeans" [shape_only 16384 32])) ∧
     "n_features"
       ∈ columns (frame_of (session_of "KMeans" [shape_only 16384 32])) ∧
     "speedup"
       ∈ columns (frame_of (session_of "KMeans" [shape_only 16384 32]))) ∧
  chart_single_algo_speedup
    (frame_of (session_of "KMeans" [shape_only 16384 32])) "KMeans"
    = Raise (KeyError "speedup").
Proof.
  assert (¬ ("algo"
               ∈ columns (frame_of (session_of "KMeans" [shape_only 16384 32])) ∧
             "n_samples"
               ∈ columns (frame_of (session_of "KMeans" [shape_only 16384 32])) ∧
             "n_features"
               ∈ columns (frame_of (session_of "KMeans" [shape_only 16384 32])) ∧
             "speedup"
               ∈ columns (frame_of (session_of "KMeans" [shape_only 16384 32]))))
    as Hmiss by compute_done.
  split; [exact Hmiss|].
  destruct (chart_single_algo_speedup_missing_column _ "KMeans" Hmiss)
    as [[_ H]|(k & _ & _ & _ & H)]; rewrite H; vm_compute in H;
    [discriminate H | symmetry; exact H].
Defined.

Lemma chart_all_algo_speedup_missing_column_witness :
  ¬ ("algo" ∈ columns (frame_of (session_of "KMeans" [shape_only 16384 32])) ∧
     "n_samples"
       ∈ columns (frame_of (session_of "KMeans" [shape_only 16384 32])) ∧
     "speedup"
       ∈ columns (frame_of (session_of "KMeans" [shape_only 16384 32]))) ∧
  chart_all_algo_speedup group_mean
    (frame_of (session_of "KMeans" [shape_only 16384 32]))
    = Raise (KeyError "speedup").
Proof.
  assert (¬ ("algo"
               ∈ columns (frame_of (session_of "KMeans" [shape_only 16384 32])) ∧
             "n_samples"
               ∈ columns (frame_of (session_of "KMeans" [shape_only 16384 32])) ∧
             "speedup"
               ∈ columns (frame_of (session_of "KMeans" [shape_only 16384 32]))))
    as Hmiss by compute_done.
  split; [exact Hmiss|].
  destruct (chart_all_algo_speedup_missing_column group_mean _ Hmiss)
    as (k & _ & _ & H).
  rewrite H. vm_compute in H. symmetry. exact H.
Defined.

Lemma run_cells_provenance_witness :
  Forall (λ c, well_behaved (c_runner c)) two_cells ∧
  tag "PCA" (stub_runner "blobs" two_features) (timing 16384 256 1 4)
    ∈ records (run_cells by_name two_cells initial) ∧
  ∃ c, c ∈ two_cells ∧
       dict_get "algo"
         (tag "PCA" (stub_runner "blobs" two_features) (timing 16384 256 1 4))
         = Some (VStr (c_algorithm c)).
Proof.
  assert (Forall (λ c, well_behaved (c_runner c)) two_cells) as Hwb
    by (repeat constructor; apply stub_runner_well_behaved).
  assert (tag "PCA" (stub_runner "blobs" two_features) (timing 16384 256 1 4)
            ∈ records (run_cells by_name two_cells initial)) as Hin
    by compute_done.
  split; [exact Hwb|]. split; [exact Hin|].
  destruct (run_cells_provenance by_name two_cells _ Hwb Hin)
    as (c & Hc & Ha & _).
  exists c. split; [exact Hc | exact Ha].
Defined.

Lemma chart_single_algo_speedup_unknown_witness :
  "algo" ∈ columns (frame_of (session_of "KMeans" two_features)) ∧
  "n_samples" ∈ columns (frame_of (session_of "KMeans" two_features)) ∧
  "n_features" ∈ columns (frame_of (session_of "KMeans" two_features)) ∧
  "speedup" ∈ columns (frame_of (session_of "KMeans" two_features)) ∧
  (∀ r, r ∈ rows (frame_of (session_of "KMeans" two_features)) →
     cell r "algo" ≠ Some (VStr "LinearRegression")) ∧
  chart_single_algo_speedup (frame_of (session_of "KMeans" two_features))
    "LinearRegression"
    = Return {| pt_index := []; pt_columns := []; pt_values := [] |}.
Proof.
  assert ("algo" ∈ columns (frame_of (session_of "KMeans" two_features)))
    as H1 by compute_done.
  assert ("n_samples" ∈ columns (frame_of (session_of "KMeans" two_features)))
    as H2 by compute_done.
  assert ("n_features" ∈ columns (frame_of (session_of "KMeans" two_features)))
    as H3 by compute_done.
  assert ("speedup" ∈ columns (frame_of (session_of "KMeans" two_features)))
    as H4 by compute_done.
  assert (∀ r, r ∈ rows (frame_of (session_of "KMeans" two_features)) →
            cell r "algo" ≠ Some (VStr "LinearRegression")) as H5.
  { apply Forall_forall. compute_done. }
  repeat (split; [assumption|]).
  exact (chart_single_algo_speedup_unknown _ _ H1 H2 H3 H4 H5).
Defined.

Lemma execute_benchmark_retags_shared_witness :
  by_name "PCA" = Return tt ∧
  run (cached_runner [0%nat]) tt VERBOSE RUN_CPU tt
    (heap (session_of "KMeans" one_point))
    = (heap (session_of "KMeans" one_point), Return [0%nat]) ∧
  benchmark_results (session_of "KMeans" one_point) !! 0%nat = Some 0%nat ∧
  (heap (session_of "KMeans" one_point) !! 0%nat) ≫= dict_get "algo"
    = Some (VStr "KMeans") ∧
  (heap (execute_benchmark by_name "PCA" (cached_runner [0%nat])
           VERBOSE RUN_CPU tt (session_of "KMeans" one_point)).1 !! 0%nat)
    ≫= dict_get "algo" = Some (VStr "PCA").
Proof.
  assert (heap (session_of "KMeans" one_point) !! 0%nat
          = Some (tag "KMeans" (stub_runner "blobs" one_point)
                    (timing 16384 32 1 4))) as Hd
    by (vm_compute; reflexivity).
  assert (benchmark_results (session_of "KMeans" one_point) !! 0%nat
          = Some 0%nat) as Hi by (vm_compute; reflexivity).
  split; [reflexivity|]. split; [reflexivity|]. split; [exact Hi|].
  split; [rewrite Hd; vm_compute; reflexivity|].
  destruct (execute_benchmark_retags_shared by_name "PCA"
              (cached_runner [0%nat]) VERBOSE RUN_CPU tt
              (session_of "KMeans" one_point) tt _ [0%nat] 0%nat 0%nat _
              eq_refl eq_refl Hi (list_elem_of_here _ _) Hd)
    as (_ & Hnew & Halgo).
  rewrite Hnew. exact Halgo.
Defined.

Lemma chart_single_algo_speedup_Return_witness :
  chart_single_algo_speedup (frame_of (session_of "KMeans" two_features))
    "KMeans"
    = Return {| pt_index := [Some (VInt 16384)];
                pt_columns := [Some (VInt 32); Some (VInt 256)];
                pt_values := [[Some (VFloat 2); Some (VFloat 4)]] |} ∧
  NoDup (shape <$>
           selected (frame_of (session_of "KMeans" two_features)) "KMeans").
Proof.
  assert (chart_single_algo_speedup
            (frame_of (session_of "KMeans" two_features)) "KMeans"
          = Return {| pt_index := [Some (VInt 16384)];
                      pt_columns := [Some (VInt 32); Some (VInt 256)];
                      pt_values := [[Some (VFloat 2); Some (VFloat 4)]] |})
    as H by (vm_compute; reflexivity).
  split; [exact H|].
  exact (proj1 (proj2 (chart_single_algo_speedup_Return _ _ _ H))).
Defined.

Lemma chart_single_once_per_algorithm_witness :
  Forall (λ c, well_behaved (c_runner c)) two_cells ∧
  Forall (λ c, distinct_shapes (c_runner c)) two_cells ∧
  NoDup (algorithms two_cells) ∧
  NoDup (shape <$>
           selected (from_records (records (run_cells by_name two_cells
                                              initial))) "PCA").
Proof.
  assert (Forall (λ c, well_behaved (c_runner c)) two_cells) as Hwb
    by (repeat constructor; apply stub_runner_well_behaved).
  assert (Forall (λ c, distinct_shapes (c_runner c)) two_cells) as Hds
    by (repeat constructor; apply stub_runner_distinct_shapes; compute_done).
  assert (NoDup (algorithms two_cells)) as Hnd by compute_done.
  repeat (split; [assumption|]).
  exact (proj1 (chart_single_once_per_algorithm by_name two_cells "PCA"
                  Hwb Hds Hnd)).
Defined.
End ConcreteMore.

(** ** The accumulated sequence and the lines of the export *)

Section SessionSequence.
Import Pandas.
Context {AlgoPair Kwargs : Type}.
Variable algorithm_by_name : string → outcome AlgoPair.
Implicit Types (r : @Runner AlgoPair Kwargs) (a : string) (st : session)
  (c : @call AlgoPair Kwargs) (cs : list (@call AlgoPair Kwargs)).

(** A cell appends the references its runner returned, whatever the runner. *)
Lemma exec_refs c st :
  benchmark_results (exec algorithm_by_name c st).1
    = benchmark_results st ++ (handed_over algorithm_by_name c st).2.
Proof.
  unfold exec, handed_over. rewrite execute_benchmark_eq.
  destruct (algorithm_by_name _) as [p|e]; [|by rewrite app_nil_r].
  destruct (run _ _ _ _ _ _) as [h1 [ls|e]]; cbn; by rewrite ?app_nil_r.
Qed.

Lemma exec_records c st :
  well_behaved (c_runner c) → results_live st →
  records (exec algorithm_by_name c st).1
    = records st ++ contribution algorithm_by_name c st.
Proof.
  intros Hwb Hlive. unfold exec, contribution, handed_over.
  rewrite execute_benchmark_records by done. f_equal.
  destruct (algorithm_by_name _) as [p|e]; [|done].
  by destruct (run _ _ _ _ _ _) as [h1 [ls|e]].
Qed.

Lemma exec_old c st l :
  well_behaved (c_runner c) → results_live st →
  l ∈ benchmark_results st →
  heap (exec algorithm_by_name c st).1 !! l = heap st !! l.
Proof.
  intros Hwb Hlive. unfold exec.
  destruct (execute_benchmark_appends algorithm_by_name (c_algorithm c)
    (c_runner c) (c_verbose c) (c_run_cpu c) (c_kwargs c) st Hwb Hlive)
    as (_ & _ & Hold & _). apply Hold.
Qed.

(** (C3, as the code has it) With runners that build the records they
    return and leave the records there are alone, the accumulated sequence
    only grows at its end across the benchmark cells of a session: after
    the cells it holds the references it held, in their places, followed by
    the references the runners returned, cell after cell; the records read
    off it are the records read off it before, unchanged, followed by the
    records the runners returned, tagged; and the conversion, charting and
    export cells leave the session as they found it. *)
Theorem benchmark_results_append_only cs st mean algorithm :
  Forall (λ c, well_behaved (c_runner c)) cs →
  results_live st →
  benchmark_results (run_cells algorithm_by_name cs st)
    = benchmark_results st ++ session_refs algorithm_by_name cs st ∧
  records (run_cells algorithm_by_name cs st)
    = records st ++ session_records algorithm_by_name cs st ∧
  (∀ l, l ∈ benchmark_results st →
     heap (run_cells algorithm_by_name cs st) !! l = heap st !! l) ∧
  results_live (run_cells algorithm_by_name cs st) ∧
  (to_dataframe (run_cells algorithm_by_name cs st)).1
    = run_cells algorithm_by_name cs st ∧
  (chart_single_cell algorithm (run_cells algorithm_by_name cs st)).1
    = run_cells algorithm_by_name cs st ∧
  (chart_all_cell mean (run_cells algorithm_by_name cs st)).1
    = run_cells algorithm_by_name cs st ∧
  (to_csv_cell (run_cells algorithm_by_name cs st)).1
    = run_cells algorithm_by_name cs st.
Proof.
  intros Hwb Hlive.
  assert (benchmark_results (run_cells algorithm_by_name cs st)
            = benchmark_results st ++ session_refs algorithm_by_name cs st ∧
          records (run_cells algorithm_by_name cs st)
            = records st ++ session_records algorithm_by_name cs st ∧
          (∀ l, l ∈ benchmark_results st →
             heap (run_cells algorithm_by_name cs st) !! l = heap st !! l) ∧
          results_live (run_cells algorithm_by_name cs st))
    as (Hrefs & Hrecs & Hold & Hl).
  { revert st Hlive. induction Hwb as [|c cs Hc _ IH]; intros st Hlive.
    - cbn. by rewrite !app_nil_r.
    - cbn [run_cells session_refs session_records].
      destruct (IH (exec algorithm_by_name c st).1) as (Hrefs & Hrecs & Hold & Hl);
        [by apply exec_live|].
      rewrite Hrefs, Hrecs, exec_refs, exec_records by done.
      rewrite <- !app_assoc. repeat split; try done.
      intros l I. rewrite Hold, exec_old; [done..|].
      rewrite exec_refs. apply elem_of_app. by left. }
  by repeat split.
Qed.

(** (C8, as the code has it) After any run of benchmark cells from the
    empty session, the exported table has the unnamed index column followed
    by exactly the keys of the accumulated records, each once; a session
    with a record has the columns [algo], [dataset_name] and [input_type];
    the table has a line for each record, which starts with the number of
    the record, holds every text value of the record under the column of
    its key, the name of the algorithm of one of the cells under [algo]
    among them, and has a missing cell under every column whose key the
    record lacks. *)
Theorem to_csv_columns cs :
  Forall (λ c, well_behaved (c_runner c)) cs →
  ∃ csv cols,
    to_csv_cell (run_cells algorithm_by_name cs initial)
      = (run_cells algorithm_by_name cs initial, Return csv) ∧
    header csv = "" :: cols ∧
    NoDup cols ∧
    (∀ k, k ∈ cols ↔
       ∃ d, d ∈ records (run_cells algorithm_by_name cs initial) ∧
            k ∈ dict_keys d) ∧
    (records (run_cells algorithm_by_name cs initial) ≠ [] →
       "algo" ∈ cols ∧ "dataset_name" ∈ cols ∧ "input_type" ∈ cols) ∧
    length (lines csv)
      = length (records (run_cells algorithm_by_name cs initial)) ∧
    (∀ i d, records (run_cells algorithm_by_name cs initial) !! i = Some d →
       ∃ line,
         lines csv !! i = Some line ∧
         head line = Some (Some (VInt (Z.of_nat i))) ∧
         (∃ c j, c ∈ cs ∧ cols !! j = Some "algo" ∧
                 line !! S j = Some (Some (VStr (c_algorithm c)))) ∧
         (∀ j k s, cols !! j = Some k → dict_get k d = Some (VStr s) →
            line !! S j = Some (Some (VStr s))) ∧
         (∀ j k, cols !! j = Some k → dict_get k d = None →
            line !! S j = Some None)).
Proof.
  intros Hwb.
  assert (Forall has_tags (records (run_cells algorithm_by_name cs initial)))
    as Htags.
  { apply run_cells_tagged; [done| |]; by apply Forall_nil. }
  assert (Forall (from_cell ([] ++ cs))
            (records (run_cells algorithm_by_name cs initial))) as Hfrom
    by (apply run_cells_from; [done | constructor | constructor]).
  rewrite Forall_forall in Htags. rewrite Forall_forall in Hfrom.
  eexists _, _. split; [reflexivity|].
  cbn [to_csv header lines from_records columns rows].
  split; [done|]. split; [apply first_seen_NoDup|].
  split; [apply columns_from_records|].
  split.
  { destruct (records _) as [|d ds] eqn:E; [done|]. intros _.
    destruct (Htags d) as (Ha & Hd & Hi); [apply list_elem_of_here|].
    destruct Ha as [? Ha], Hd as [? Hd], Hi as [? Hi].
    rewrite <- E.
    repeat split; apply columns_from_records; exists d;
      (split; [rewrite E; apply list_elem_of_here
              | eapply dict_get_Some_keys; eassumption]). }
  split; [apply length_imap|].
  intros i d Hi. eexists. rewrite list_lookup_imap, Hi.
  split; [reflexivity|]. split; [reflexivity|].
  assert (∀ j k, first_seen []
                   (records (run_cells algorithm_by_name cs initial)
                      ≫= dict_keys) !! j = Some k →
            (Some (VInt (Z.of_nat i))
               :: (cell d <$> first_seen []
                     (records (run_cells algorithm_by_name cs initial)
                        ≫= dict_keys))) !! S j = Some (dict_get k d)) as Hcell.
  { intros j k Hj.
    change ((cell d <$> first_seen []
               (records (run_cells algorithm_by_name cs initial)
                  ≫= dict_keys)) !! j = Some (dict_get k d)).
    by rewrite list_lookup_fmap, Hj. }
  split; [|split].
  - destruct (Hfrom d) as (c & Hc & Ha & _);
      [eapply list_elem_of_lookup_2, Hi|].
    assert ("algo" ∈ first_seen []
              (records (run_cells algorithm_by_name cs initial) ≫= dict_keys))
      as [j Hj]%list_elem_of_lookup.
    { apply (columns_from_records _ "algo"). exists d.
      split; [eapply list_elem_of_lookup_2, Hi|].
      eapply dict_get_Some_keys, Ha. }
    exists c, j. split; [exact Hc|]. split; [exact Hj|].
    by rewrite (Hcell j "algo" Hj), Ha.
  - intros j k s Hj Hk. by rewrite (Hcell j k Hj), Hk.
  - intros j k Hj Hk. by rewrite (Hcell j k Hj), Hk.
Qed.
End SessionSequence.

Section ConcreteSequence.
Import Pandas Examples MoreExamples.

(** (C3) A record that changes after it was appended: a runner that returns
    the dictionary the sequence already holds has it tagged anew, so the
    first record of the session, which read [KMeans], reads [PCA] after the
    second cell, and so does the record appended by that cell. *)
Lemma benchmark_results_record_relabelled :
  records (session_of "KMeans" one_point)
    = [tag "KMeans" (stub_runner "blobs" one_point) (timing 16384 32 1 4)] ∧
  records (execute_benchmark by_name "PCA" (cached_runner [0%nat])
             VERBOSE RUN_CPU tt (session_of "KMeans" one_point)).1
    = [tag "PCA" (cached_runner [0%nat]) (timing 16384 32 1 4);
       tag "PCA" (cached_runner [0%nat]) (timing 16384 32 1 4)] ∧
  dict_get "algo"
    (tag "KMeans" (stub_runner "blobs" one_point) (timing 16384 32 1 4))
    = Some (VStr "KMeans") ∧
  dict_get "algo" (tag "PCA" (cached_runner [0%nat]) (timing 16384 32 1 4))
    = Some (VStr "PCA").
Proof. repeat split; vm_compute; reflexivity. Qed.

Lemma benchmark_results_append_only_witness :
  Forall (λ c, well_behaved (c_runner c))
    [Call "PCA" (stub_runner "blobs" two_features) VERBOSE RUN_CPU tt;
     Call "TSNE" (failing_runner (External 1)) VERBOSE false tt] ∧
  results_live (session_of "KMeans" one_point) ∧
  records (run_cells by_name
             [Call "PCA" (stub_runner "blobs" two_features) VERBOSE RUN_CPU tt;
              Call "TSNE" (failing_runner (External 1)) VERBOSE false tt]
             (session_of "KMeans" one_point))
    = records (session_of "KMeans" one_point)
        ++ session_records by_name
             [Call "PCA" (stub_runner "blobs" two_features) VERBOSE RUN_CPU tt;
              Call "TSNE" (failing_runner (External 1)) VERBOSE false tt]
             (session_of "KMeans" one_point) ∧
  session_records by_name
    [Call "PCA" (stub_runner "blobs" two_features) VERBOSE RUN_CPU tt;
     Call "TSNE" (failing_runner (External 1)) VERBOSE false tt]
    (session_of "KMeans" one_point)
    = [tag "PCA" (stub_runner "blobs" two_features) (timing 16384 32 1 2);
       tag "PCA" (stub_runner "blobs" two_features) (timing 16384 256 1 4)].
Proof.
  assert (Forall (λ c, well_behaved (c_runner c))
    [Call "PCA" (stub_runner "blobs" two_features) VERBOSE RUN_CPU tt;
     Call "TSNE" (failing_runner (External 1)) VERBOSE false tt]) as Hwb.
  { repeat constructor; try apply stub_runner_well_behaved;
      try apply failing_runner_keeps; by intros ? ? ? ? ? ? ? [= ]. }
  split; [exact Hwb|]. split; [apply results_live_session_of|].
  split; [|vm_compute; reflexivity].
  exact (proj1 (proj2 (benchmark_results_append_only by_name _
                         (session_of "KMeans" one_point) group_mean "KMeans"
                         Hwb (results_live_session_of _ _)))).
Defined.

Lemma to_csv_columns_witness :
  Forall (λ c, well_behaved (c_runner c))
    [Call "KMeans" (stub_runner "blobs" two_features) VERBOSE RUN_CPU tt] ∧
  ∃ csv cols,
    to_csv_cell (session_of "KMeans" two_features)
      = (session_of "KMeans" two_features, Return csv) ∧
    header csv = "" :: cols ∧
    ("algo" ∈ cols ∧ "dataset_name" ∈ cols ∧ "input_type" ∈ cols).
Proof.
  assert (Forall (λ c, well_behaved (c_runner c))
    [Call "KMeans" (stub_runner "blobs" two_features) VERBOSE RUN_CPU tt])
    as Hwb by (repeat constructor; apply stub_runner_well_behaved).
  split; [exact Hwb|].
  destruct (to_csv_columns by_name _ Hwb)
    as (csv & cols & Hcsv & Hh & _ & _ & Hne & _).
  exists csv, cols. split; [exact Hcsv|]. split; [exact Hh|].
  apply Hne. vm_compute. discriminate.
Defined.
End ConcreteSequence.
